(** * A self-correcting code-generation agent: project directory and test loop

    Shallow embedding of the Python sources

    - [experiment2/codebase/project_manager.py] (class [ProjectManager]),
    - [experiment2/succes/qwen3-coder:latest.py] ([generate_code_and_tests]
      and its helpers),
    - [experiment2/succes/phi4-reasoning:14b-plus-q8_0.py]
      ([CodingAgentV2.execute_coding_agent_v2]),
    - [experiment2/fail/qwen3:30b-a3b.py] ([analyze_test_failure] and
      [execute_coding_agent]),

    as state-and-exception passing functions over an explicit world: a file
    system, the [ProjectManager] object, and the log of the interactions
    with the outside (HTTP requests to the generation service, subprocesses,
    directory and file operations).  The generation service and the
    operating system are oracles consulted with the log so far.

    The file system is a map from directory names to the files in them:
    directories of the working directory, side by side, under plain names
    ([plain_name]), holding files under plain names (POSIX).  Removing and
    creating a directory are taken to succeed: permissions and a
    non-directory in the way are not modelled. *)

From Stdlib Require Import ZArith Ascii String List Lia.
From stdpp Require Import base decidable option list gmap strings fin_maps.

Open Scope string_scope.
Open Scope list_scope.

(** ** Python strings *)

Module Py.

Definition nl : string := String (ascii_of_nat 10) EmptyString.

(** [str.isspace] restricted to the ASCII range: TAB, LF, VT, FF, CR, the
    four separators FS, GS, RS, US, and the space.  Characters above 127
    are ordinary characters in this model. *)
Definition is_space (c : ascii) : bool :=
  let n := nat_of_ascii c in
  ((9 <=? n)%nat && (n <=? 13)%nat) || ((28 <=? n)%nat && (n <=? 32)%nat).

Fixpoint lstrip (s : string) : string :=
  match s with
  | EmptyString => EmptyString
  | String c s' => if is_space c then lstrip s' else s
  end.

Fixpoint rstrip (s : string) : string :=
  match s with
  | EmptyString => EmptyString
  | String c s' =>
      match rstrip s' with
      | EmptyString => if is_space c then EmptyString else String c EmptyString
      | r => String c r
      end
  end.

(** [s.strip()] *)
Definition strip (s : string) : string := rstrip (lstrip s).

Definition lower_ascii (c : ascii) : ascii :=
  let n := nat_of_ascii c in
  if ((65 <=? n)%nat && (n <=? 90)%nat) then ascii_of_nat (n + 32) else c.

(** [s.lower()] on ASCII letters. *)
Fixpoint lower (s : string) : string :=
  match s with
  | EmptyString => EmptyString
  | String c s' => String (lower_ascii c) (lower s')
  end.

(** [re.sub(r'```python|```', '', s)]: scanning from the left, every
    occurrence of the fence (with the word python when it follows
    directly) is dropped; [skip] counts the characters of a match still to
    be dropped. *)
Fixpoint sub_fences_from (skip : nat) (s : string) : string :=
  match s with
  | EmptyString => EmptyString
  | String c s' =>
      match skip with
      | S k => sub_fences_from k s'
      | O =>
          if String.prefix "```python" s then sub_fences_from 8 s'
          else if String.prefix "```" s then sub_fences_from 2 s'
          else String c (sub_fences_from 0 s')
      end
  end.

Definition sub_fences (s : string) : string := sub_fences_from 0 s.

(** Truth value of a string and of an optional string ([None] and the
    empty string are false). *)
Definition truthy (s : string) : bool :=
  match s with EmptyString => false | _ => true end.

Definition truthy_opt (o : option string) : bool :=
  match o with Some s => truthy s | None => false end.

(** [os.path.join(a, b)] for a relative [b]. *)
Definition path_join (a b : string) : string := a +:+ "/" +:+ b.

Definition cr : ascii := ascii_of_nat 13.
Definition lf : ascii := ascii_of_nat 10.

(** What reading in text mode (universal newlines) makes of the text of a
    file: a carriage return, with the line feed after it if there is one,
    becomes a line feed. *)
Fixpoint universal_newlines (s : string) : string :=
  match s with
  | EmptyString => EmptyString
  | String c s' =>
      if Ascii.eqb c cr then
        String lf
          match s' with
          | String c' s'' =>
              if Ascii.eqb c' lf then universal_newlines s''
              else universal_newlines s'
          | EmptyString => EmptyString
          end
      else String c (universal_newlines s')
  end.

(** No character of [s] is [c]. *)
Fixpoint without (c : ascii) (s : string) : bool :=
  match s with
  | EmptyString => true
  | String c' s' => negb (Ascii.eqb c' c) && without c s'
  end.

End Py.

(** ** Exceptions, results and the world *)

Inductive exn_class :=
| RuntimeError
| FileNotFoundError
| ValueError
| TypeError
| NameError
| KeyError
| OtherException.

Record exn := Exn { exn_cls : exn_class; exn_msg : string }.

(** A chat request, by the helper that builds it.  The prompt texts are
    fixed templates filled with these fields; the configuration key the
    helper passes along is a separate argument of the adapter. *)
Inductive request :=
| ReqPlan (language code_prompt : string)
| ReqCode (language user_message : string)
| ReqTests (file_name code_content test_plan : string)
| ReqDebug (code_content test_output test_file : string)
| ReqAnalyze (code_content test_output : string).

(** What [requests.post(...)] followed by [raise_for_status()] and the
    extraction of the message content yields. *)
Inductive http_outcome :=
| HttpContent (content : string)
| HttpRequestException (e : string)
| HttpOtherException (e : exn).

(** What [subprocess.run(...)] yields. *)
Inductive proc_outcome :=
| Completed (stdout stderr : string) (returncode : Z)
| TimeoutExpired
| ProcException (e : exn).

Inductive event :=
| EvMakedirs (path : string)
| EvRmtree (path : string)
| EvWrite (dir name content : string)
| EvCopy (src_dir name dst_dir : string)
| EvRequest (model_key : string) (r : request)
| EvSubprocess (command : list string) (cwd : string) (timeout : Z).

(** The [ProjectManager] object. *)
Record ProjectManager := {
  base_dir : string;
  current_dir : option string
}.

(** The world: directories (by path) with their files (by name), the
    project manager and the log. *)
Record state := {
  fs : gmap string (gmap string string);
  pm : ProjectManager;
  log : list event
}.

(** The outside: the generation service, the operating system, and the
    module-level limits. *)
Record env := {
  ollama_post : list event -> string -> request -> http_outcome;
  subprocess_run : list event -> list string -> string -> Z -> proc_outcome;
  traceback_format_exc : exn -> string;
  MAX_DEBUG_ATTEMPTS : nat;
  MAX_TEST_REGEN_ATTEMPTS : nat
}.

Inductive res (A : Type) :=
| Ret (a : A)
| Raise (e : exn).
Arguments Ret {A} a.
Arguments Raise {A} e.

Definition M (A : Type) : Type := state -> res A * state.

Definition ret {A} (a : A) : M A := fun s => (Ret a, s).
Definition raise {A} (e : exn) : M A := fun s => (Raise e, s).

Definition bind {A B} (m : M A) (k : A -> M B) : M B :=
  fun s =>
    match m s with
    | (Ret a, s') => k a s'
    | (Raise e, s') => (Raise e, s')
    end.

Declare Scope py_scope.
Delimit Scope py_scope with py.
Notation "x <- m ;; k" := (bind m (fun x => k))
  (at level 100, m at next level, right associativity) : py_scope.
Notation "m ;; k" := (bind m (fun _ => k))
  (at level 100, right associativity) : py_scope.
Open Scope py_scope.

Definition get_state : M state := fun s => (Ret s, s).
Definition set_fs (f : gmap string (gmap string string)) : M unit :=
  fun s => (Ret tt, {| fs := f; pm := pm s; log := log s |}).
Definition set_current_dir (d : option string) : M unit :=
  fun s => (Ret tt, {| fs := fs s;
                       pm := {| base_dir := base_dir (pm s); current_dir := d |};
                       log := log s |}).
Definition emit (e : event) : M unit :=
  fun s => (Ret tt, {| fs := fs s; pm := pm s; log := log s ++ [e] |}).

(** [try: body  finally: fin] *)
Definition try_finally {A} (body : M A) (fin : M unit) : M A :=
  fun s =>
    match body s with
    | (r, s') =>
        match fin s' with
        | (Ret _, s'') => (r, s'')
        | (Raise e, s'') => (Raise e, s'')
        end
    end.

(** [try: body  except Exception as e: handler(e)] *)
Definition try_except {A} (body : M A) (handler : exn -> M A) : M A :=
  fun s =>
    match body s with
    | (Ret a, s') => (Ret a, s')
    | (Raise e, s') => handler e s'
    end.

(** ** The file system *)

(** [os.path.exists(p)] for a directory path. *)
Definition path_exists (f : gmap string (gmap string string)) (p : string) : bool :=
  Py.truthy p && bool_decide (is_Some (f !! p)).

(** A name that denotes an entry of the directory it is joined to, and a
    directory of the working directory when used on its own: not empty,
    not [.] or [..], without [/] and without NUL, of at most 255
    characters (POSIX).  The map [fs] holds such directories side by side
    and such files in them; with another name [os.path.join] and [open]
    leave the directory, name it a second time, or fail. *)
Definition plain_name (n : string) : bool :=
  negb (String.eqb n "") && negb (String.eqb n ".") && negb (String.eqb n "..")
  && Py.without "/" n && Py.without (ascii_of_nat 0) n
  && (String.length n <=? 255)%nat.

(** [shutil.rmtree(p)] of a directory of the map.  Directories are kept
    side by side under plain names, so nothing lies below [p]; the call is
    taken to succeed. *)
Definition rmtree (p : string) : M unit :=
  s <- get_state ;;
  emit (EvRmtree p) ;;
  set_fs (delete p (fs s)).

(** [os.makedirs(p)] *)
Definition makedirs (p : string) : M unit :=
  s <- get_state ;;
  if negb (Py.truthy p) then
    raise (Exn FileNotFoundError "[Errno 2] No such file or directory: ''")
  else if path_exists (fs s) p then
    raise (Exn OtherException ("[Errno 17] File exists: '" +:+ p +:+ "'"))
  else
    emit (EvMakedirs p) ;;
    set_fs (<[p := ∅]> (fs s)).

(** [os.makedirs(p, exist_ok=True)] *)
Definition makedirs_exist_ok (p : string) : M unit :=
  s <- get_state ;;
  if negb (Py.truthy p) then
    raise (Exn FileNotFoundError "[Errno 2] No such file or directory: ''")
  else if path_exists (fs s) p then ret tt
  else
    emit (EvMakedirs p) ;;
    set_fs (<[p := ∅]> (fs s)).

(** [with open(os.path.join(d, name), "w") as f: f.write(content)] for a
    plain [name]: the file is created or replaced in [d], and the text is
    stored as written (POSIX: no translation of line ends on writing). *)
Definition open_write (d name content : string) : M unit :=
  s <- get_state ;;
  match (if Py.truthy d then fs s !! d else None) with
  | None =>
      raise (Exn FileNotFoundError
               ("[Errno 2] No such file or directory: '" +:+ Py.path_join d name +:+ "'"))
  | Some files =>
      emit (EvWrite d name content) ;;
      set_fs (<[d := <[name := content]> files]> (fs s))
  end.

(** The content of the file [name] of directory [d], if both exist. *)
Definition file_lookup (f : gmap string (gmap string string)) (d name : string)
  : option string :=
  if Py.truthy d then files ← f !! d; files !! name else None.

(** [shutil.copy(os.path.join(src, name), os.path.join(dst, name))]: a
    file is not copied onto itself ([shutil.SameFileError], an [OSError]). *)
Definition shutil_copy (src name dst : string) : M unit :=
  s <- get_state ;;
  match file_lookup (fs s) src name with
  | None =>
      raise (Exn FileNotFoundError
               ("[Errno 2] No such file or directory: '" +:+ Py.path_join src name +:+ "'"))
  | Some content =>
      if String.eqb src dst then
        raise (Exn OtherException
                 ("'" +:+ Py.path_join src name +:+ "' and '"
                  +:+ Py.path_join dst name +:+ "' are the same file"))
      else
        match (if Py.truthy dst then fs s !! dst else None) with
        | None =>
            raise (Exn FileNotFoundError
                     ("[Errno 2] No such file or directory: '"
                      +:+ Py.path_join dst name +:+ "'"))
        | Some files =>
            emit (EvCopy src name dst) ;;
            set_fs (<[dst := <[name := content]> files]> (fs s))
        end
  end.

(** ** [ProjectManager] (experiment2/codebase/project_manager.py)

    The methods act on the [pm] component of the world.  Console messages
    are not part of the model. *)

Definition not_initialized : exn :=
  Exn RuntimeError "No project directory exists. Call create_project() first.".

Definition create_project : M unit :=
  s <- get_state ;;
  (if path_exists (fs s) (base_dir (pm s)) then rmtree (base_dir (pm s)) else ret tt) ;;
  makedirs (base_dir (pm s)) ;;
  set_current_dir (Some (base_dir (pm s))).

Definition write_file (file_name content : string) : M unit :=
  s <- get_state ;;
  if negb (Py.truthy_opt (current_dir (pm s))) then raise not_initialized
  else open_write (default "" (current_dir (pm s))) file_name content.

(** The file is read in text mode, for a plain [file_name]. *)
Definition read_file (file_name : string) : M string :=
  s <- get_state ;;
  if negb (Py.truthy_opt (current_dir (pm s))) then raise not_initialized
  else
    match file_lookup (fs s) (default "" (current_dir (pm s))) file_name with
    | None => raise (Exn FileNotFoundError ("File not found: " +:+ file_name))
    | Some content => ret (Py.universal_newlines content)
    end.

(** The outcome of the command is the oracle's; what the command does to
    the file system is no part of this function ([exec_call] adds it for
    the calls on a handle; the test loop takes the test command to leave
    the project directory as it is). *)
Definition run_command (E : env) (command : list string) (timeout : Z)
  : M (string * string * Z) :=
  s <- get_state ;;
  if negb (Py.truthy_opt (current_dir (pm s))) then raise not_initialized
  else
    let cwd := default "" (current_dir (pm s)) in
    emit (EvSubprocess command cwd timeout) ;;
    match subprocess_run E (log s) command cwd timeout with
    | Completed stdout stderr returncode => ret (stdout, stderr, returncode)
    | TimeoutExpired => ret ("", "Error: Command timed out.", 1%Z)
    | ProcException e =>
        ret ("", "Error: Failed to execute command. Details: " +:+ exn_msg e, 1%Z)
    end.

Definition cleanup : M unit :=
  s <- get_state ;;
  if Py.truthy (base_dir (pm s)) && path_exists (fs s) (base_dir (pm s)) then
    rmtree (base_dir (pm s)) ;;
    set_current_dir None
  else ret tt.




(** ** The generation adapter and the helpers built on it
    (experiment2/succes/qwen3-coder:latest.py; the methods of
    [CodingAgentV2] in phi4-reasoning:14b-plus-q8_0.py are the same
    functions) *)

Definition OUTPUT_DIR : string := "generated_code".

(** The [MODELS] table: configuration key and model name (the sampling
    options play no role here). *)
Definition MODELS : list (string * string) :=
  [ ("coder", "qwen3-coder:latest");
    ("tester", "qwen3-coder:latest");
    ("debugger", "qwen3-coder:latest");
    ("analyzer", "qwen3-coder:latest");
    ("planner", "qwen3-coder:latest") ].

Definition MODELS_get (model_key : string) : option string :=
  snd <$> List.find (fun kv => String.eqb (fst kv) model_key) MODELS.

Definition connect_error (name e : string) : string :=
  "Error: Failed to connect to '" +:+ name +:+ "' API. Details: " +:+ e.

Definition call_ollama_api (E : env) (messages : request) (model_key : string)
  : M string :=
  match MODELS_get model_key with
  | None =>
      raise (Exn ValueError ("Model key '" +:+ model_key +:+ "' not found in config."))
  | Some name =>
      s <- get_state ;;
      emit (EvRequest model_key messages) ;;
      match ollama_post E (log s) model_key messages with
      | HttpContent content => ret (Py.strip content)
      | HttpRequestException e => ret (connect_error name e)
      | HttpOtherException e => raise e
      end
  end.

Definition generate_test_plan (E : env) (language code_prompt : string) : M string :=
  call_ollama_api E (ReqPlan language code_prompt) "planner".

Definition refactor_message (initial_code prompt : string) : string :=
  String.concat ""
    [ "Please improve this existing code based on the following prompt:";
      Py.nl; Py.nl; "== Existing Code =="; Py.nl; "```python"; Py.nl;
      initial_code; Py.nl; "```"; Py.nl; Py.nl;
      "== Improvement Prompt =="; Py.nl; prompt ].

Definition debug_message (initial_code prompt : string) : string :=
  String.concat ""
    [ "Please debug and fix this existing code based on the following prompt and a test plan that will be provided:";
      Py.nl; Py.nl; "== Existing Code =="; Py.nl; "```python"; Py.nl;
      initial_code; Py.nl; "```"; Py.nl; Py.nl;
      "== Debugging Prompt =="; Py.nl; prompt ].

(** The [user_message] that [generate_code] computes. *)
Definition user_message (prompt : string) (initial_code : option string)
    (mode : string) : string :=
  match initial_code with
  | Some code =>
      if Py.truthy code then
        if String.eqb mode "refactor" then refactor_message code prompt
        else if String.eqb mode "debug" then debug_message code prompt
        else prompt
      else prompt
  | None => prompt
  end.

Definition generate_code (E : env) (language prompt : string)
    (initial_code : option string) (mode : string) : M string :=
  raw_code <- call_ollama_api E
                (ReqCode language (user_message prompt initial_code mode)) "coder" ;;
  ret (Py.strip (Py.sub_fences raw_code)).

Definition generate_unit_tests (E : env)
    (file_name code_content test_plan_description : string) : M string :=
  raw_test_code <-
    call_ollama_api E (ReqTests file_name code_content test_plan_description) "tester" ;;
  ret (Py.strip (Py.sub_fences raw_test_code)).

Definition debug_code (E : env) (code_content test_output test_file : string)
  : M string :=
  raw_fixed_code <-
    call_ollama_api E (ReqDebug code_content test_output test_file) "debugger" ;;
  ret (Py.strip (Py.sub_fences raw_fixed_code)).

Definition analyze_test_failure (E : env) (code_content test_output : string)
  : M string :=
  response <- call_ollama_api E (ReqAnalyze code_content test_output) "analyzer" ;;
  let analysis_result := Py.lower (Py.strip response) in
  if negb (bool_decide (analysis_result ∈ ["code_bug"; "test_bug"]))
  then ret "cannot_determine"
  else ret analysis_result.

(** ** The classifier of experiment2/fail/qwen3:30b-a3b.py *)

Module A3b.

(** [needle in s] *)
Fixpoint contains (needle s : string) : bool :=
  String.prefix needle s ||
  match s with
  | EmptyString => false
  | String _ s' => contains needle s'
  end.

Definition api_error (e : string) : string := "Error: API call failed - " +:+ e.

(** [CODING_AGENT_CONFIG["MODELS"][model_key]] is looked up before the
    [try] (the table has the five keys of [MODELS]); inside it every
    exception of the request becomes the returned text. *)
Definition call_ollama_api (E : env) (messages : request) (model_key : string)
  : M string :=
  match MODELS_get model_key with
  | None => raise (Exn KeyError ("'" +:+ model_key +:+ "'"))
  | Some _ =>
      s <- get_state ;;
      emit (EvRequest model_key messages) ;;
      match ollama_post E (log s) model_key messages with
      | HttpContent content => ret (Py.strip content)
      | HttpRequestException e => ret (api_error e)
      | HttpOtherException e => ret (api_error (exn_msg e))
      end
  end.

Definition analyze_test_failure (E : env) (code_content test_output : string)
  : M string :=
  response <- call_ollama_api E (ReqAnalyze code_content test_output) "analyzer" ;;
  let result := Py.lower (Py.strip response) in
  ret (if contains "code" result then "code_bug" else "test_bug").

End A3b.

(** ** The test loop

    [for attempt in range(MAX_DEBUG_ATTEMPTS + MAX_TEST_REGEN_ATTEMPTS)] of
    [generate_code_and_tests] and of [execute_coding_agent_v2]: the two
    bodies are the same statements and differ in the test command only.
    [loop_vars] are the local variables the loop assigns and leaves behind
    ([generated_tests] and [attempt] are unbound before the first
    iteration). *)

Record loop_vars := {
  generated_code : string;
  generated_tests : option string;
  test_output : string;
  analysis_result : string;
  test_passed : bool;
  attempt : option nat
}.

Section Loop.

Context (E : env).
Context (test_command : string -> list string).
Context (code_file test_file test_plan : string).

Fixpoint test_loop (range : list nat) (v : loop_vars) : M loop_vars :=
  match range with
  | [] => ret v
  | attempt_ :: rest =>
      tests <- generate_unit_tests E code_file (generated_code v) test_plan ;;
      write_file test_file tests ;;
      result <- run_command E (test_command test_file) 60 ;;
      let '(stdout, stderr, returncode) := result in
      if (returncode =? 0)%Z then
        (* break *)
        ret {| generated_code := generated_code v;
               generated_tests := Some tests;
               test_output := stdout;
               analysis_result := analysis_result v;
               test_passed := true;
               attempt := Some attempt_ |}
      else
        let test_output_ := stdout +:+ stderr in
        analysis <- analyze_test_failure E (generated_code v) test_output_ ;;
        if String.eqb analysis "code_bug"
           && (attempt_ <? MAX_DEBUG_ATTEMPTS E)%nat then
          code <- debug_code E (generated_code v) test_output_ test_file ;;
          write_file code_file code ;;
          test_loop rest
            {| generated_code := code;
               generated_tests := Some tests;
               test_output := test_output_;
               analysis_result := analysis;
               test_passed := test_passed v;
               attempt := Some attempt_ |}
        else if String.eqb analysis "test_bug"
                && (attempt_ <? MAX_TEST_REGEN_ATTEMPTS E)%nat then
          (* the loop generates the tests again *)
          test_loop rest
            {| generated_code := generated_code v;
               generated_tests := Some tests;
               test_output := test_output_;
               analysis_result := analysis;
               test_passed := test_passed v;
               attempt := Some attempt_ |}
        else
          (* break *)
          ret {| generated_code := generated_code v;
                 generated_tests := Some tests;
                 test_output := test_output_;
                 analysis_result := analysis;
                 test_passed := test_passed v;
                 attempt := Some attempt_ |}
  end.

Definition loop_init (code : string) : loop_vars :=
  {| generated_code := code;
     generated_tests := None;
     test_output := "";
     analysis_result := "code_bug";
     test_passed := false;
     attempt := None |}.

Definition run_test_loop (code : string) : M loop_vars :=
  test_loop (seq 0 (MAX_DEBUG_ATTEMPTS E + MAX_TEST_REGEN_ATTEMPTS E)) (loop_init code).

End Loop.

(** [shutil.copy(os.path.join(project_manager.current_dir, name), ...)] *)
Definition copy_from_project (name : string) : M unit :=
  s <- get_state ;;
  match current_dir (pm s) with
  | None =>
      raise (Exn TypeError
               "expected str, bytes or os.PathLike object, not NoneType")
  | Some d => shutil_copy d name OUTPUT_DIR
  end.

(** ** [generate_code_and_tests] (qwen3-coder:latest.py) *)

Module Qwen3Coder.

Definition test_command (test_file : string) : list string :=
  ["python"; "-m"; "pytest"; "-q"; "--tb=no"; test_file].

Definition code_file : string := "generated_module.py".
Definition test_file : string := "test_" +:+ code_file.

Definition new_project_manager (dir : string) : M unit :=
  fun s => (Ret tt, {| fs := fs s;
                       pm := {| base_dir := dir; current_dir := None |};
                       log := log s |}).

Definition generate_code_and_tests (E : env) (prompt language : string)
    (test_plan : option string) : M (string * string) :=
  makedirs_exist_ok OUTPUT_DIR ;;
  new_project_manager "temp_coding_project" ;;
  try_finally
    (try_except
       (create_project ;;
        code <- generate_code E language prompt None "generate" ;;
        write_file code_file code ;;
        plan <- (if negb (Py.truthy_opt test_plan)
                 then generate_test_plan E language prompt
                 else ret (default "" test_plan)) ;;
        v <- run_test_loop E test_command code_file test_file plan code ;;
        copy_from_project code_file ;;
        copy_from_project test_file ;;
        match generated_tests v with
        | None =>
            raise (Exn NameError
                     "cannot access local variable 'generated_tests' where it is not associated with a value")
        | Some tests => ret (generated_code v, tests)
        end)
       (fun e => raise e))
    cleanup.

End Qwen3Coder.

(** ** [CodingAgentV2.execute_coding_agent_v2]
    (phi4-reasoning:14b-plus-q8_0.py) *)

Module Phi4.

Definition test_command (test_file : string) : list string :=
  ["pytest"; "-q"; "--tb=no"; test_file].

(** [CodingAgentV2(project_manager)] *)
Definition CodingAgentV2_init (project_manager : ProjectManager) : M unit :=
  (fun s => (Ret tt, {| fs := fs s; pm := project_manager; log := log s |})) ;;
  makedirs_exist_ok OUTPUT_DIR.

Definition code_budget_message : string :=
  "I was unable to fix a bug in the code within the allowed attempts.".

Definition test_flaw_message : string :=
  "The analysis suggests the failure may be due to a flaw in the generated tests.".

Definition success_answer (final_file_path code output : string) : string :=
  String.concat ""
    [ "I have successfully generated and tested the code. All tests passed."; Py.nl;
      "The final code has been saved to `"; final_file_path; "`."; Py.nl; Py.nl;
      "**Code:**"; Py.nl; "```python"; Py.nl; code; Py.nl; "```"; Py.nl; Py.nl;
      "**Test Results:**"; Py.nl; "```"; Py.nl; output; Py.nl; "```" ].

Definition failure_answer (final_file_path analysis_message code output : string)
  : string :=
  String.concat ""
    [ "I was unable to produce a working solution that passes all tests."; Py.nl;
      "The last code version has been saved to `"; final_file_path; "`."; Py.nl; Py.nl;
      analysis_message; Py.nl; Py.nl;
      "**Last Code Attempt:**"; Py.nl; "```python"; Py.nl; code; Py.nl; "```";
      Py.nl; Py.nl;
      "**Final Test Output:**"; Py.nl; "```"; Py.nl; output; Py.nl; "```" ].

Definition error_answer (E : env) (e : exn) : string :=
  String.concat ""
    [ "An unexpected error occurred during coding agent execution: "; exn_msg e;
      Py.nl; traceback_format_exc E e ].

Definition execute_coding_agent_v2 (E : env)
    (language code_file prompt test_plan mode : string)
    (initial_code : option string) : M string :=
  try_finally
    (try_except
       (create_project ;;
        code <- (if Py.truthy_opt initial_code
                    && bool_decide (mode ∈ ["refactor"; "debug"])
                 then generate_code E language prompt initial_code mode
                 else generate_code E language prompt None "generate") ;;
        write_file code_file code ;;
        let test_file := "test_" +:+ code_file in
        v <- run_test_loop E test_command code_file test_file test_plan code ;;
        let final_file_path := Py.path_join OUTPUT_DIR code_file in
        copy_from_project code_file ;;
        if test_passed v then
          ret (success_answer final_file_path (generated_code v) (test_output v))
        else
          let analysis_message :=
            if String.eqb (analysis_result v) "code_bug"
            then code_budget_message else test_flaw_message in
          ret (failure_answer final_file_path analysis_message
                 (generated_code v) (test_output v)))
       (fun e => ret (error_answer E e)))
    cleanup.

End Phi4.

(** * Properties *)

(** ** The project directory *)

Lemma path_exists_delete f p : path_exists (delete p f) p = false.
Proof.
  unfold path_exists. rewrite lookup_delete_eq.
  rewrite bool_decide_eq_false_2; [apply andb_false_r | apply is_Some_None].
Qed.


Lemma path_exists_truthy f p : path_exists f p = true -> Py.truthy p = true.
Proof. unfold path_exists. intros [H _]%andb_true_iff. exact H. Qed.

Lemma path_exists_lookup f p : path_exists f p = true -> is_Some (f !! p).
Proof.
  unfold path_exists. intros [_ H]%andb_true_iff.
  now apply bool_decide_eq_true_1 in H.
Qed.

(** What [cleanup] does, by cases on the existence of the directory. *)
Lemma cleanup_present s :
  path_exists (fs s) (base_dir (pm s)) = true ->
  cleanup s =
    (Ret tt, {| fs := delete (base_dir (pm s)) (fs s);
                pm := {| base_dir := base_dir (pm s); current_dir := None |};
                log := log s ++ [EvRmtree (base_dir (pm s))] |}).
Proof.
  intros H. unfold cleanup, bind, get_state.
  rewrite H, (path_exists_truthy _ _ H). reflexivity.
Qed.

Lemma cleanup_absent s :
  path_exists (fs s) (base_dir (pm s)) = false -> cleanup s = (Ret tt, s).
Proof.
  intros H. unfold cleanup, bind, get_state.
  rewrite H, andb_false_r. reflexivity.
Qed.

Lemma cleanup_returns s : fst (cleanup s) = Ret tt.
Proof.
  destruct (path_exists (fs s) (base_dir (pm s))) eqn:H.
  - now rewrite cleanup_present.
  - now rewrite cleanup_absent.
Qed.

Lemma cleanup_base_dir s : base_dir (pm (snd (cleanup s))) = base_dir (pm s).
Proof.
  destruct (path_exists (fs s) (base_dir (pm s))) eqn:H.
  - now rewrite cleanup_present.
  - now rewrite cleanup_absent.
Qed.




Lemma plain_name_truthy n : plain_name n = true -> Py.truthy n = true.
Proof. destruct n; [discriminate | reflexivity]. Qed.

(** ** The handle after [cleanup] *)













Definition timeout_result : string * string * Z :=
  ("", "Error: Command timed out.", 1%Z).

Lemma run_command_ready E cmd t s :
  Py.truthy_opt (current_dir (pm s)) = true ->
  run_command E cmd t s =
    (Ret match subprocess_run E (log s) cmd (default "" (current_dir (pm s))) t with
         | Completed stdout stderr returncode => (stdout, stderr, returncode)
         | TimeoutExpired => timeout_result
         | ProcException e =>
             ("", "Error: Failed to execute command. Details: " +:+ exn_msg e, 1%Z)
         end,
     {| fs := fs s; pm := pm s;
        log := log s ++ [EvSubprocess cmd (default "" (current_dir (pm s))) t] |}).
Proof.
  intros H. unfold run_command, bind, get_state, emit, ret. rewrite H; cbn.
  destruct (subprocess_run E _ _ _ _); reflexivity.
Qed.

(** ** Counting interactions in the log *)

Definition count_ev (f : event -> bool) (l : list event) : nat :=
  length (List.filter f l).

Lemma count_ev_app f l1 l2 :
  count_ev f (l1 ++ l2)%list = count_ev f l1 + count_ev f l2.
Proof. unfold count_ev. now rewrite List.filter_app, length_app. Qed.

Definition is_repair (e : event) : bool :=
  match e with EvRequest _ (ReqDebug _ _ _) => true | _ => false end.

Definition is_test_run (e : event) : bool :=
  match e with EvSubprocess _ _ _ => true | _ => false end.

Definition is_analysis (e : event) : bool :=
  match e with EvRequest _ (ReqAnalyze _ _) => true | _ => false end.

Definition is_test_generation (e : event) : bool :=
  match e with EvRequest _ (ReqTests _ _ _) => true | _ => false end.

(** [bounded f n m]: running [m] only appends to the log, and appends at
    most [n] events selected by [f], whether it returns or raises. *)
Definition bounded {A} (f : event -> bool) (n : nat) (m : M A) : Prop :=
  forall s, exists l, log (snd (m s)) = (log s ++ l)%list /\ count_ev f l <= n.

Section Bounded.

Context (f : event -> bool).

Lemma bounded_weaken {A} n n' (m : M A) : n <= n' -> bounded f n m -> bounded f n' m.
Proof. intros Hle H s. destruct (H s) as (l & Hl & Hc). exists l. split; [exact Hl | lia]. Qed.

Lemma bounded_ret {A} (a : A) : bounded f 0 (ret a).
Proof. intros s. exists []. cbn. now rewrite app_nil_r. Qed.

Lemma bounded_raise {A} e : bounded f 0 (@raise A e).
Proof. intros s. exists []. cbn. now rewrite app_nil_r. Qed.

Lemma bounded_get_state : bounded f 0 get_state.
Proof. intros s. exists []. cbn. now rewrite app_nil_r. Qed.

Lemma bounded_set_fs g : bounded f 0 (set_fs g).
Proof. intros s. exists []. cbn. now rewrite app_nil_r. Qed.

Lemma bounded_set_current_dir d : bounded f 0 (set_current_dir d).
Proof. intros s. exists []. cbn. now rewrite app_nil_r. Qed.

Lemma bounded_emit e : bounded f (if f e then 1 else 0) (emit e).
Proof.
  intros s. exists [e]. split; [reflexivity |].
  unfold count_ev. cbn. destruct (f e); cbn; lia.
Qed.

Lemma bounded_emit_0 e : f e = false -> bounded f 0 (emit e).
Proof. intros H. generalize (bounded_emit e). now rewrite H. Qed.

Lemma bounded_bind {A B} n n' (m : M A) (k : A -> M B) :
  bounded f n m -> (forall a, bounded f n' (k a)) -> bounded f (n + n') (bind m k).
Proof.
  intros Hm Hk s. unfold bind.
  destruct (Hm s) as (l & Hl & Hc).
  destruct (m s) as [[a | e] s']; cbn in *.
  - destruct (Hk a s') as (l' & Hl' & Hc').
    exists (l ++ l'). rewrite Hl', Hl, <- app_assoc, count_ev_app.
    split; [reflexivity | lia].
  - exists l. split; [exact Hl | lia].
Qed.

Lemma bounded_bind_0 {A B} (m : M A) (k : A -> M B) :
  bounded f 0 m -> (forall a, bounded f 0 (k a)) -> bounded f 0 (bind m k).
Proof. intros Hm Hk. exact (bounded_bind 0 0 m k Hm Hk). Qed.

Lemma bounded_bind_l {A B} n (m : M A) (k : A -> M B) :
  bounded f 0 m -> (forall a, bounded f n (k a)) -> bounded f n (bind m k).
Proof. intros Hm Hk. exact (bounded_bind 0 n m k Hm Hk). Qed.

End Bounded.

(** Proves [bounded f 0 m] for straight-line code over silent operations. *)
Ltac quiet :=
  repeat first
    [ apply bounded_ret | apply bounded_raise | apply bounded_get_state
    | apply bounded_set_fs | apply bounded_set_current_dir
    | apply bounded_emit_0; reflexivity
    | apply bounded_bind_0; [| intros ?]
    | assumption
    | match goal with
      | |- bounded _ _ (if ?c then _ else _) => destruct c
      | |- bounded _ _ (match ?x with _ => _ end) => destruct x
      end ].

Definition is_fs_event (e : event) : bool :=
  match e with
  | EvMakedirs _ | EvRmtree _ | EvWrite _ _ _ | EvCopy _ _ _ => true
  | _ => false
  end.

Section BoundedOperations.

Context (f : event -> bool).
Context (Hfs : forall e, is_fs_event e = true -> f e = false).

Local Ltac fs_quiet :=
  repeat first
    [ apply bounded_emit_0; apply Hfs; reflexivity | progress quiet ].

Lemma bounded_write_file n c : bounded f 0 (write_file n c).
Proof. unfold write_file. fs_quiet. Qed.

Lemma bounded_cleanup : bounded f 0 cleanup.
Proof. unfold cleanup. fs_quiet. Qed.

Lemma bounded_copy_from_project n : bounded f 0 (copy_from_project n).
Proof. unfold copy_from_project. fs_quiet. Qed.



Lemma bounded_call_ollama_api E req key :
  bounded f (if f (EvRequest key req) then 1 else 0) (call_ollama_api E req key).
Proof.
  unfold call_ollama_api. destruct (MODELS_get key) as [name |].
  - apply (bounded_bind f 0 _); [quiet | intros s].
    rewrite <- (Nat.add_0_r (if f _ then 1 else 0)).
    apply bounded_bind; [apply bounded_emit | intros _; quiet].
  - eapply bounded_weaken; [| apply bounded_raise]. lia.
Qed.

End BoundedOperations.





Lemma is_repair_fs e : is_fs_event e = true -> is_repair e = false.
Proof. now destruct e. Qed.

Lemma is_test_run_fs e : is_fs_event e = true -> is_test_run e = false.
Proof. now destruct e. Qed.

Section LoopBounds.

Context (E : env) (test_command : string -> list string).
Context (code_file test_file test_plan : string).

Local Abbreviation loop := (test_loop E test_command code_file test_file test_plan).



End LoopBounds.

(** ** Stepping through the operations *)

(** The world after the events [l] were logged. *)
Definition logged (s : state) (l : list event) : state :=
  {| fs := fs s; pm := pm s; log := log s ++ l |}.

(** What the adapter makes of the outcome of a request. *)
Definition adapter_reply (o : http_outcome) : res string :=
  match o with
  | HttpContent content => Ret (Py.strip content)
  | HttpRequestException e => Ret (connect_error "qwen3-coder:latest" e)
  | HttpOtherException e => Raise e
  end.

Definition res_map {A B} (g : A -> B) (r : res A) : res B :=
  match r with Ret a => Ret (g a) | Raise e => Raise e end.

(** [re.sub(...).strip()] applied to a response. *)
Definition clean (raw : string) : string := Py.strip (Py.sub_fences raw).

(** The label [analyze_test_failure] makes of a response. *)
Definition normalize (response : string) : string :=
  let analysis_result := Py.lower (Py.strip response) in
  if negb (bool_decide (analysis_result ∈ ["code_bug"; "test_bug"]))
  then "cannot_determine" else analysis_result.

Lemma call_ollama_api_eq E req key name s :
  MODELS_get key = Some name ->
  call_ollama_api E req key s =
    (match ollama_post E (log s) key req with
     | HttpContent content => Ret (Py.strip content)
     | HttpRequestException e => Ret (connect_error name e)
     | HttpOtherException e => Raise e
     end, logged s [EvRequest key req]).
Proof.
  intros H. unfold call_ollama_api, bind, get_state, emit, ret, raise, logged.
  rewrite H. cbn. destruct (ollama_post E _ _ _); reflexivity.
Qed.

Lemma generate_unit_tests_eq E a b c s :
  generate_unit_tests E a b c s =
    (res_map clean (adapter_reply (ollama_post E (log s) "tester" (ReqTests a b c))),
     logged s [EvRequest "tester" (ReqTests a b c)]).
Proof.
  unfold generate_unit_tests, bind.
  rewrite (call_ollama_api_eq _ _ _ "qwen3-coder:latest") by reflexivity.
  destruct (ollama_post E _ _ _); reflexivity.
Qed.

Lemma debug_code_eq E a b c s :
  debug_code E a b c s =
    (res_map clean (adapter_reply (ollama_post E (log s) "debugger" (ReqDebug a b c))),
     logged s [EvRequest "debugger" (ReqDebug a b c)]).
Proof.
  unfold debug_code, bind.
  rewrite (call_ollama_api_eq _ _ _ "qwen3-coder:latest") by reflexivity.
  destruct (ollama_post E _ _ _); reflexivity.
Qed.

Lemma analyze_test_failure_eq E a b s :
  analyze_test_failure E a b s =
    (res_map normalize (adapter_reply (ollama_post E (log s) "analyzer" (ReqAnalyze a b))),
     logged s [EvRequest "analyzer" (ReqAnalyze a b)]).
Proof.
  unfold analyze_test_failure, bind.
  rewrite (call_ollama_api_eq _ _ _ "qwen3-coder:latest") by reflexivity.
  destruct (ollama_post E _ _ _); cbn; unfold normalize;
    try match goal with |- context [negb ?b] => destruct b end; reflexivity.
Qed.

(** A handle with a live project directory [d]. *)
Definition ready (s : state) (d : string) : Prop :=
  current_dir (pm s) = Some d /\ Py.truthy d = true /\ is_Some (fs s !! d).

Lemma write_file_ready n c s d :
  ready s d ->
  exists s', write_file n c s = (Ret tt, s')
             /\ ready s' d
             /\ log s' = log s ++ [EvWrite d n c]
             /\ pm s' = pm s
             /\ file_lookup (fs s') d n = Some c
             /\ (forall d' n', is_Some (file_lookup (fs s) d' n') ->
                               is_Some (file_lookup (fs s') d' n'))
             /\ (forall d', is_Some (fs s !! d') -> is_Some (fs s' !! d')).
Proof.
  intros (Hc & Ht & [files Hf]).
  unfold write_file, bind, get_state. rewrite Hc; cbn. rewrite Ht; cbn.
  unfold open_write, bind, get_state, emit, set_fs; cbn. rewrite Ht, Hf; cbn.
  eexists. split; [reflexivity |]. cbn.
  split; [| split; [reflexivity | split; [reflexivity | split; [| split]]]].
  - split; [exact Hc | split; [exact Ht |]]. cbn. rewrite lookup_insert_eq. eauto.
  - unfold file_lookup. rewrite Ht, lookup_insert_eq. cbn. apply lookup_insert_eq.
  - intros d' n'. unfold file_lookup. destruct (Py.truthy d'); [| easy].
    destruct (decide (d = d')) as [<- | Hne].
    + rewrite lookup_insert_eq, Hf. cbn.
      destruct (decide (n = n')) as [<- | Hn].
      * rewrite lookup_insert_eq. eauto.
      * now rewrite lookup_insert_ne.
    + now rewrite lookup_insert_ne.
  - intros d'. destruct (decide (d = d')) as [<- | Hne].
    + rewrite lookup_insert_eq. eauto.
    + now rewrite lookup_insert_ne.
Qed.

Lemma run_command_step E cmd t s d :
  ready s d ->
  run_command E cmd t s =
    (Ret match subprocess_run E (log s) cmd d t with
         | Completed stdout stderr returncode => (stdout, stderr, returncode)
         | TimeoutExpired => timeout_result
         | ProcException e =>
             ("", "Error: Failed to execute command. Details: " +:+ exn_msg e, 1%Z)
         end,
     logged s [EvSubprocess cmd d t]).
Proof.
  intros (Hc & Ht & _). rewrite run_command_ready by (rewrite Hc; exact Ht).
  now rewrite Hc.
Qed.

(** The two halves of the loop body after the test command has run, named
    so that statements can mention them: [on_result] is the
    [if returncode == 0: ... else: ...] statement and [on_analysis] the
    three-way branch on the classification. *)
Section LoopBody.

Context (E : env) (test_command : string -> list string).
Context (code_file test_file test_plan : string).

Local Abbreviation loop := (test_loop E test_command code_file test_file test_plan).

Definition loop_vars_at (k : nat) (v : loop_vars) (code tests output analysis : string)
  : loop_vars :=
  {| generated_code := code;
     generated_tests := Some tests;
     test_output := output;
     analysis_result := analysis;
     test_passed := test_passed v;
     attempt := Some k |}.

Definition on_analysis (k : nat) (rest : list nat) (v : loop_vars)
    (tests output analysis : string) : M loop_vars :=
  if String.eqb analysis "code_bug" && (k <? MAX_DEBUG_ATTEMPTS E)%nat then
    code <- debug_code E (generated_code v) output test_file ;;
    write_file code_file code ;;
    loop rest (loop_vars_at k v code tests output analysis)
  else if String.eqb analysis "test_bug" && (k <? MAX_TEST_REGEN_ATTEMPTS E)%nat then
    loop rest (loop_vars_at k v (generated_code v) tests output analysis)
  else
    ret (loop_vars_at k v (generated_code v) tests output analysis).

Definition on_result (k : nat) (rest : list nat) (v : loop_vars) (tests : string)
    (result : string * string * Z) : M loop_vars :=
  let '(stdout, stderr, returncode) := result in
  if (returncode =? 0)%Z then
    ret {| generated_code := generated_code v;
           generated_tests := Some tests;
           test_output := stdout;
           analysis_result := analysis_result v;
           test_passed := true;
           attempt := Some k |}
  else
    analysis <- analyze_test_failure E (generated_code v) (stdout +:+ stderr) ;;
    on_analysis k rest v tests (stdout +:+ stderr) analysis.

Lemma test_loop_cons k rest v :
  loop (k :: rest) v =
    (tests <- generate_unit_tests E code_file (generated_code v) test_plan ;;
     write_file test_file tests ;;
     result <- run_command E (test_command test_file) 60 ;;
     on_result k rest v tests result).
Proof. reflexivity. Qed.

(** One iteration up to the test run, on a live project and with a
    generation service that answers (possibly with its error text). *)
Lemma test_loop_iteration k rest v s d raw :
  ready s d ->
  adapter_reply (ollama_post E (log s) "tester"
                   (ReqTests code_file (generated_code v) test_plan)) = Ret raw ->
  exists s',
    ready s' d
    /\ pm s' = pm s
    /\ log s' = log s ++ [EvRequest "tester"
                            (ReqTests code_file (generated_code v) test_plan);
                          EvWrite d test_file (clean raw);
                          EvSubprocess (test_command test_file) d 60]
    /\ (forall d' n', is_Some (file_lookup (fs s) d' n') ->
                      is_Some (file_lookup (fs s') d' n'))
    /\ (forall d', is_Some (fs s !! d') -> is_Some (fs s' !! d'))
    /\ is_Some (file_lookup (fs s') d test_file)
    /\ loop (k :: rest) v s =
         on_result k rest v (clean raw)
           match subprocess_run E
                   (log s ++ [EvRequest "tester"
                                (ReqTests code_file (generated_code v) test_plan);
                              EvWrite d test_file (clean raw)])
                   (test_command test_file) d 60 with
           | Completed stdout stderr returncode => (stdout, stderr, returncode)
           | TimeoutExpired => timeout_result
           | ProcException e =>
               ("", "Error: Failed to execute command. Details: " +:+ exn_msg e, 1%Z)
           end s'.
Proof.
  intros Hr Hraw. rewrite test_loop_cons. unfold bind at 1.
  rewrite generate_unit_tests_eq, Hraw. cbn [res_map].
  set (s1 := logged s _).
  assert (ready s1 d) as Hr1 by exact Hr.
  destruct (write_file_ready test_file (clean raw) s1 d Hr1)
    as (s2 & Hw & Hr2 & Hl2 & Hp2 & Hf2 & Hk2 & Hd2).
  unfold bind at 1. rewrite Hw. unfold bind at 1.
  rewrite (run_command_step E _ _ s2 d Hr2).
  assert (log s2 = log s ++ [EvRequest "tester"
                               (ReqTests code_file (generated_code v) test_plan);
                             EvWrite d test_file (clean raw)]) as Hl
    by (rewrite Hl2; subst s1; cbn; now rewrite <- app_assoc).
  rewrite Hl.
  exists (logged s2 [EvSubprocess (test_command test_file) d 60]).
  split; [exact Hr2 |]. split; [exact Hp2 |].
  split; [cbn; rewrite Hl; now rewrite <- app_assoc |].
  split; [exact Hk2 |]. split; [exact Hd2 |].
  split; [cbn; rewrite Hf2; eauto | reflexivity].
Qed.

End LoopBody.


(** C9. On an initialised handle, an exception raised by launching or
    running the command makes [run_command] return (not raise) the failure
    result: empty stdout, "Error: Failed to execute command. Details: "
    followed by the exception's message on stderr, and exit status 1. *)
Theorem run_command_exception (E : env) (s : state) (command : list string)
    (timeout : Z) (d : string) (e : exn) :
  current_dir (pm s) = Some d ->
  Py.truthy d = true ->
  subprocess_run E (log s) command d timeout = ProcException e ->
  run_command E command timeout s =
    (Ret ("", "Error: Failed to execute command. Details: " +:+ exn_msg e, 1%Z),
     logged s [EvSubprocess command d timeout]).
Proof.
  intros Hc Ht Ho.
  rewrite run_command_ready by (rewrite Hc; exact Ht).
  rewrite Hc; cbn. now rewrite Ho.
Qed.

(** Nothing is lost from the file system, and the handle is the same. *)
Definition fs_grows (s s' : state) : Prop :=
  pm s' = pm s
  /\ (forall d n, is_Some (file_lookup (fs s) d n) -> is_Some (file_lookup (fs s') d n))
  /\ (forall d, is_Some (fs s !! d) -> is_Some (fs s' !! d)).

Lemma fs_grows_trans s1 s2 s3 : fs_grows s1 s2 -> fs_grows s2 s3 -> fs_grows s1 s3.
Proof.
  intros (Hp & Hf & Hd) (Hp' & Hf' & Hd').
  repeat split; [congruence | auto | auto].
Qed.

(** The service never fails with anything else than a request exception:
    the adapter always has a text to return. *)
Definition service_answers (E : env) : Prop :=
  forall lg key r, exists raw, adapter_reply (ollama_post E lg key r) = Ret raw.

(** Every test run fails: a non-zero exit status, a timeout or an exception
    of the launch. *)
Definition tests_always_fail (E : env) : Prop :=
  forall lg cmd d t,
    match subprocess_run E lg cmd d t with
    | Completed _ _ returncode => returncode <> 0%Z
    | _ => True
    end.

(** The classifier's verdicts are known in advance: its answer to a request
    depends on the number of classifications made before only, and is
    [label n] after [n] of them. *)
Definition classifier_says (E : env) (label : nat -> string) : Prop :=
  forall lg code out,
    res_map normalize (adapter_reply (ollama_post E lg "analyzer" (ReqAnalyze code out)))
    = Ret (label (count_ev is_analysis lg)).

(** The classifier answers every request with the given label. *)
Definition classifier_always (E : env) (label : string) : Prop :=
  classifier_says E (fun _ => label).

Section FailingIteration.

Context (E : env) (test_command : string -> list string).
Context (code_file test_file test_plan : string).
Context (label : nat -> string).
Context (Hserv : service_answers E).
Context (Hfail : tests_always_fail E).
Context (Hcls : classifier_says E label).

Local Abbreviation loop := (test_loop E test_command code_file test_file test_plan).
Local Abbreviation branch := (on_analysis E test_command code_file test_file test_plan).

Lemma failing_run lg cmd d t :
  exists stdout stderr returncode,
    match subprocess_run E lg cmd d t with
    | Completed stdout stderr returncode => (stdout, stderr, returncode)
    | TimeoutExpired => timeout_result
    | ProcException e =>
        ("", "Error: Failed to execute command. Details: " +:+ exn_msg e, 1%Z)
    end = (stdout, stderr, returncode)
    /\ (returncode =? 0)%Z = false.
Proof.
  generalize (Hfail lg cmd d t).
  destruct (subprocess_run E lg cmd d t) as [o e rc | | e]; intros H.
  - exists o, e, rc. split; [reflexivity | now apply Z.eqb_neq].
  - now exists "", "Error: Command timed out.", 1%Z.
  - now eexists "", _, 1%Z.
Qed.

(** A failing iteration arrives at the branch with the label due. *)
Lemma iteration_failing k rest v s d :
  ready s d ->
  exists tests out s' l,
    loop (k :: rest) v s
    = branch k rest v tests out (label (count_ev is_analysis (log s))) s'
    /\ ready s' d /\ fs_grows s s'
    /\ log s' = log s ++ l
    /\ count_ev is_repair l = 0 /\ count_ev is_test_run l = 1
    /\ count_ev is_analysis l = 1 /\ count_ev is_test_generation l = 1.
Proof.
  intros Hr.
  destruct (Hserv (log s) "tester" (ReqTests code_file (generated_code v) test_plan))
    as [raw Hraw].
  destruct (test_loop_iteration E test_command code_file test_file test_plan
              k rest v s d raw Hr Hraw)
    as (s3 & Hr3 & Hp3 & Hl3 & Hk3 & Hd3 & _ & Heq).
  rewrite Heq.
  match goal with |- context [subprocess_run E ?lg ?c ?dd ?t] =>
    destruct (failing_run lg c dd t) as (o & e & rc & -> & Hrc) end.
  cbn [on_result]. rewrite Hrc. unfold bind at 1.
  rewrite analyze_test_failure_eq, Hcls.
  assert (count_ev is_analysis (log s3) = count_ev is_analysis (log s)) as ->
    by (rewrite Hl3, count_ev_app; cbn; lia).
  exists (clean raw), (o +:+ e), (logged s3 [EvRequest "analyzer"
                                    (ReqAnalyze (generated_code v) (o +:+ e))]).
  eexists. split; [reflexivity |]. split; [exact Hr3 |].
  split; [now repeat split |].
  split; [cbn [logged log]; rewrite Hl3, <- app_assoc; reflexivity |].
  now cbn.
Qed.


Lemma branch_repair k rest v tests out s d :
  (k < MAX_DEBUG_ATTEMPTS E)%nat ->
  ready s d ->
  exists code s' l,
    branch k rest v tests out "code_bug" s
    = loop rest (loop_vars_at k v code tests out "code_bug") s'
    /\ ready s' d /\ fs_grows s s'
    /\ is_Some (file_lookup (fs s') d code_file)
    /\ log s' = log s ++ l
    /\ count_ev is_repair l = 1 /\ count_ev is_test_run l = 0
    /\ count_ev is_analysis l = 0.
Proof.
  intros Hk Hr. unfold on_analysis.
  apply Nat.ltb_lt in Hk. rewrite Hk. cbn [String.eqb Ascii.eqb Bool.eqb andb].
  destruct (Hserv (log s) "debugger" (ReqDebug (generated_code v) out test_file))
    as [raw Hraw].
  unfold bind at 1. rewrite debug_code_eq, Hraw. cbn [res_map].
  set (s1 := logged s _).
  assert (ready s1 d) as Hr1 by exact Hr.
  destruct (write_file_ready code_file (clean raw) s1 d Hr1)
    as (s2 & Hw & Hr2 & Hl2 & Hp2 & Hf2 & Hk2 & Hd2).
  unfold bind at 1. rewrite Hw.
  exists (clean raw), s2. eexists. split; [reflexivity |].
  split; [exact Hr2 |]. split; [now repeat split |].
  split; [rewrite Hf2; eauto |].
  split; [rewrite Hl2; subst s1; cbn [logged log]; rewrite <- app_assoc; reflexivity |].
  now cbn.
Qed.

Lemma branch_stop k rest v tests out s :
  ~ (k < MAX_DEBUG_ATTEMPTS E)%nat ->
  branch k rest v tests out "code_bug" s
  = (Ret (loop_vars_at k v (generated_code v) tests out "code_bug"), s).
Proof.
  intros Hk. unfold on_analysis.
  apply Nat.ltb_nlt in Hk. rewrite Hk. reflexivity.
Qed.

End FailingIteration.

Section AlwaysCodeBug.

Context (E : env) (test_command : string -> list string).
Context (code_file test_file test_plan : string).
Context (Hserv : service_answers E).
Context (Hfail : tests_always_fail E).
Context (Hcls : classifier_always E "code_bug").

Local Abbreviation loop := (test_loop E test_command code_file test_file test_plan).
Local Abbreviation branch := (on_analysis E test_command code_file test_file test_plan).

(** From index [k], with [j] repairs left and more than [j] iterations
    left, the loop makes [j] repairs and stops at index
    [MAX_DEBUG_ATTEMPTS]. *)
Lemma loop_always_code_bug d j : forall k n v s,
  ready s d ->
  k + j = MAX_DEBUG_ATTEMPTS E ->
  (j < n)%nat ->
  exists v' s' l,
    loop (seq k n) v s = (Ret v', s')
    /\ ready s' d /\ fs_grows s s'
    /\ log s' = log s ++ l
    /\ count_ev is_repair l = j
    /\ count_ev is_test_run l = S j
    /\ count_ev is_analysis l = S j
    /\ analysis_result v' = "code_bug"
    /\ test_passed v' = test_passed v
    /\ attempt v' = Some (MAX_DEBUG_ATTEMPTS E).
Proof.
  induction j as [|j IH]; intros k n v s Hr Hkj Hn;
    (destruct n as [|n]; [lia |]); cbn [seq];
    destruct (iteration_failing E test_command code_file test_file test_plan
                (fun _ => "code_bug") Hserv Hfail Hcls k (seq (S k) n) v s d Hr)
      as (tests & out & s1 & l1 & Heq & Hr1 & Hg1 & Hl1 & Hc1 & Hc1' & Hc1'' & _);
    rewrite Heq.
  - rewrite branch_stop by lia.
    exists (loop_vars_at k v (generated_code v) tests out "code_bug"), s1, l1.
    split; [reflexivity |]. split; [exact Hr1 |]. split; [exact Hg1 |].
    split; [exact Hl1 |]. split; [exact Hc1 |]. split; [exact Hc1' |].
    split; [exact Hc1'' |]. split; [reflexivity |]. split; [reflexivity |].
    cbn. f_equal. lia.
  - destruct (branch_repair E test_command code_file test_file test_plan Hserv
                k (seq (S k) n) v tests out s1 d ltac:(lia) Hr1)
      as (code & s2 & l2 & Heq2 & Hr2 & Hg2 & _ & Hl2 & Hc2 & Hc2' & Hc2'').
    rewrite Heq2.
    destruct (IH (S k) n (loop_vars_at k v code tests out "code_bug") s2 Hr2
                ltac:(lia) ltac:(lia))
      as (v' & s3 & l3 & Heq3 & Hr3 & Hg3 & Hl3 & Hc3 & Hc3' & Hc3'' & Ha & Hp & Hat).
    exists v', s3, (l1 ++ l2 ++ l3).
    split; [exact Heq3 |]. split; [exact Hr3 |].
    split; [eauto using fs_grows_trans |].
    split; [rewrite Hl3, Hl2, Hl1, <- !app_assoc; reflexivity |].
    rewrite !count_ev_app.
    split; [lia |]. split; [lia |]. split; [lia |].
    split; [exact Ha |]. split; [exact Hp | exact Hat].
Qed.

End AlwaysCodeBug.

(** ** Stepping through the top-level operations *)

Definition fs_only (l : list event) : Prop := Forall (fun e => is_fs_event e = true) l.

Lemma count_ev_fs_only f l :
  (forall e, is_fs_event e = true -> f e = false) -> fs_only l -> count_ev f l = 0.
Proof.
  intros Hf. induction 1 as [|e l He _ IH]; [reflexivity |].
  unfold count_ev in *. cbn. now rewrite (Hf e He).
Qed.

Lemma is_analysis_fs e : is_fs_event e = true -> is_analysis e = false.
Proof. now destruct e. Qed.

Lemma create_project_ready s :
  Py.truthy (base_dir (pm s)) = true ->
  exists s' l,
    create_project s = (Ret tt, s')
    /\ ready s' (base_dir (pm s))
    /\ base_dir (pm s') = base_dir (pm s)
    /\ (forall d, is_Some (fs s !! d) -> is_Some (fs s' !! d))
    /\ log s' = log s ++ l /\ fs_only l.
Proof.
  intros Ht. unfold create_project, bind, get_state.
  destruct (path_exists (fs s) (base_dir (pm s))) eqn:Hex.
  - unfold rmtree, makedirs, bind, get_state, emit, set_fs, set_current_dir; cbn.
    rewrite Ht, path_exists_delete; cbn.
    eexists; exists [EvRmtree (base_dir (pm s)); EvMakedirs (base_dir (pm s))].
    split; [reflexivity |]. cbn.
    split; [split; [reflexivity | split; [exact Ht |]]; cbn;
            rewrite lookup_insert_eq; eauto |].
    split; [reflexivity |].
    split; [| split; [now rewrite <- app_assoc | now repeat constructor]].
    intros d Hd. destruct (decide (base_dir (pm s) = d)) as [<- | Hne].
    + rewrite lookup_insert_eq; eauto.
    + now rewrite lookup_insert_ne, lookup_delete_ne.
  - unfold ret, makedirs, bind, get_state, emit, set_fs, set_current_dir; cbn.
    rewrite Ht, Hex; cbn.
    eexists; exists [EvMakedirs (base_dir (pm s))].
    split; [reflexivity |]. cbn.
    split; [split; [reflexivity | split; [exact Ht |]]; cbn;
            rewrite lookup_insert_eq; eauto |].
    split; [reflexivity |].
    split; [| split; [reflexivity | now repeat constructor]].
    intros d Hd. destruct (decide (base_dir (pm s) = d)) as [<- | Hne].
    + rewrite lookup_insert_eq; eauto.
    + now rewrite lookup_insert_ne.
Qed.

Lemma copy_from_project_ready n s d :
  ready s d ->
  d <> OUTPUT_DIR ->
  is_Some (file_lookup (fs s) d n) ->
  is_Some (fs s !! OUTPUT_DIR) ->
  exists s',
    copy_from_project n s = (Ret tt, s')
    /\ ready s' d /\ fs_grows s s'
    /\ log s' = log s ++ [EvCopy d n OUTPUT_DIR].
Proof.
  intros (Hc & Ht & Hd) Hdiff [content Hn] [files Ho].
  unfold copy_from_project, bind, get_state. rewrite Hc.
  unfold shutil_copy, bind, get_state, emit, set_fs. rewrite Hn.
  rewrite (proj2 (String.eqb_neq d OUTPUT_DIR) Hdiff). cbn. rewrite Ho. cbn.
  eexists. split; [reflexivity |].
  split; [| split; [| reflexivity]].
  - split; [exact Hc | split; [exact Ht |]]. cbn.
    destruct (decide (OUTPUT_DIR = d)) as [<- | Hne].
    + rewrite lookup_insert_eq; eauto.
    + now rewrite lookup_insert_ne.
  - split; [reflexivity |]. cbn. split.
    + intros d' n'. unfold file_lookup. destruct (Py.truthy d'); [| easy].
      destruct (decide (OUTPUT_DIR = d')) as [<- | Hne].
      * rewrite lookup_insert_eq, Ho. cbn.
        destruct (decide (n = n')) as [<- | Hn'].
        -- rewrite lookup_insert_eq. eauto.
        -- now rewrite lookup_insert_ne.
      * now rewrite lookup_insert_ne.
    + intros d'. destruct (decide (OUTPUT_DIR = d')) as [<- | Hne].
      * rewrite lookup_insert_eq; eauto.
      * now rewrite lookup_insert_ne.
Qed.

Lemma cleanup_log s :
  exists l, log (snd (cleanup s)) = log s ++ l /\ fs_only l.
Proof.
  destruct (path_exists (fs s) (base_dir (pm s))) eqn:H.
  - rewrite cleanup_present by assumption. eexists. split; [reflexivity |].
    now repeat constructor.
  - rewrite cleanup_absent by assumption. exists []. split; [now rewrite app_nil_r |].
    constructor.
Qed.

(** [try: body  except Exception: ...  finally: cleanup()] when the body
    returns. *)
Lemma try_cleanup_returns {A} (body : M A) h s a s1 :
  body s = (Ret a, s1) ->
  try_finally (try_except body h) cleanup s = (Ret a, snd (cleanup s1)).
Proof.
  intros H. unfold try_finally, try_except. rewrite H.
  pose proof (cleanup_returns s1) as Hc.
  destruct (cleanup s1) as [[[] | e] s2]; cbn in *; [reflexivity | discriminate].
Qed.

Lemma generate_code_step E language prompt initial_code mode s :
  generate_code E language prompt initial_code mode s =
    (res_map clean
       (adapter_reply
          (ollama_post E (log s) "coder"
             (ReqCode language (user_message prompt initial_code mode)))),
     logged s [EvRequest "coder"
                 (ReqCode language (user_message prompt initial_code mode))]).
Proof.
  unfold generate_code, bind.
  rewrite (call_ollama_api_eq _ _ _ "qwen3-coder:latest") by reflexivity.
  destruct (ollama_post E _ _ _); reflexivity.
Qed.

(** The start of [execute_coding_agent_v2], up to the loop. *)
Lemma phi4_prologue E language code_file prompt mode initial_code s :
  service_answers E ->
  Py.truthy (base_dir (pm s)) = true ->
  exists code s1 s2 s' l,
    create_project s = (Ret tt, s1)
    /\ (if Py.truthy_opt initial_code
           && bool_decide (mode ∈ ["refactor"; "debug"])
        then generate_code E language prompt initial_code mode
        else generate_code E language prompt None "generate") s1 = (Ret code, s2)
    /\ write_file code_file code s2 = (Ret tt, s')
    /\ ready s' (base_dir (pm s))
    /\ base_dir (pm s') = base_dir (pm s)
    /\ is_Some (file_lookup (fs s') (base_dir (pm s)) code_file)
    /\ (forall d, is_Some (fs s !! d) -> is_Some (fs s' !! d))
    /\ log s' = log s ++ l
    /\ count_ev is_repair l = 0 /\ count_ev is_test_run l = 0
    /\ count_ev is_analysis l = 0.
Proof.
  intros Hserv Ht.
  destruct (create_project_ready s Ht) as (s1 & l1 & Hcp & Hr1 & Hb1 & Hd1 & Hl1 & Hfs1).
  set (um := if Py.truthy_opt initial_code && bool_decide (mode ∈ ["refactor"; "debug"])
             then user_message prompt initial_code mode
             else user_message prompt None "generate").
  destruct (Hserv (log s1) "coder" (ReqCode language um)) as [raw Hraw].
  assert ((if Py.truthy_opt initial_code && bool_decide (mode ∈ ["refactor"; "debug"])
           then generate_code E language prompt initial_code mode
           else generate_code E language prompt None "generate") s1
          = (Ret (clean raw), logged s1 [EvRequest "coder" (ReqCode language um)])) as Hg.
  { subst um. destruct (_ && _); rewrite generate_code_step, Hraw; reflexivity. }
  set (s2 := logged s1 _) in Hg.
  assert (ready s2 (base_dir (pm s))) as Hr2 by exact Hr1.
  destruct (write_file_ready code_file (clean raw) s2 _ Hr2)
    as (s3 & Hw & Hr3 & Hl3 & Hp3 & Hf3 & Hk3 & Hd3).
  exists (clean raw), s1, s2, s3. eexists.
  split; [exact Hcp |]. split; [exact Hg |]. split; [exact Hw |].
  split; [exact Hr3 |].
  split; [rewrite Hp3; exact Hb1 |].
  split; [rewrite Hf3; eauto |].
  split; [intros d Hd; apply Hd3, Hd1, Hd |].
  split; [rewrite Hl3; subst s2; cbn [logged log]; rewrite Hl1, <- !app_assoc; reflexivity |].
  rewrite !count_ev_app.
  rewrite !(count_ev_fs_only _ l1) by auto using is_repair_fs, is_test_run_fs, is_analysis_fs.
  now cbn.
Qed.

(** C7. With limits (2, 1), a generation service that always answers, tests
    that fail every time and a classifier that always says code_bug, the
    loop returns after its third attempt (index 2) having requested exactly
    2 repairs, run the tests exactly 3 times and classified 3 times, with
    [test_passed] false and [analysis_result] code_bug; and
    [execute_coding_agent_v2] then reports the failure with the message of
    the exhausted code-repair attempts.  The code file and the test file
    are plain file names, and the project directory of the top-level run
    is a plain directory name other than the output directory. *)
Theorem scenario_code_budget_exhausted (E : env)
    (test_command : string -> list string)
    (language code_file test_file prompt test_plan mode : string)
    (initial_code : option string) (s : state) (d : string) (code : string) :
  MAX_DEBUG_ATTEMPTS E = 2 ->
  MAX_TEST_REGEN_ATTEMPTS E = 1 ->
  service_answers E ->
  tests_always_fail E ->
  classifier_always E "code_bug" ->
  plain_name code_file = true ->
  (ready s d ->
   plain_name test_file = true ->
   exists v s' l,
     run_test_loop E test_command code_file test_file test_plan code s = (Ret v, s')
     /\ log s' = log s ++ l
     /\ count_ev is_repair l = 2
     /\ count_ev is_test_run l = 3
     /\ count_ev is_analysis l = 3
     /\ attempt v = Some 2
     /\ test_passed v = false
     /\ analysis_result v = "code_bug")
  /\ (plain_name ("test_" +:+ code_file) = true ->
      plain_name (base_dir (pm s)) = true ->
      base_dir (pm s) <> OUTPUT_DIR ->
      is_Some (fs s !! OUTPUT_DIR) ->
      exists last_code output s' l,
        Phi4.execute_coding_agent_v2 E language code_file prompt test_plan mode
          initial_code s
        = (Ret (Phi4.failure_answer (Py.path_join OUTPUT_DIR code_file)
                  Phi4.code_budget_message last_code output), s')
        /\ log s' = log s ++ l
        /\ count_ev is_repair l = 2
        /\ count_ev is_test_run l = 3
        /\ count_ev is_analysis l = 3).
Proof.
  intros HL1 HL2 Hserv Hfail Hcls _. split.
  - intros Hr _. unfold run_test_loop. rewrite HL1, HL2.
    destruct (loop_always_code_bug E test_command code_file test_file test_plan
                Hserv Hfail Hcls d 2 0 3 (loop_init code) s Hr
                ltac:(rewrite HL1; reflexivity) ltac:(lia))
      as (v & s' & l & Heq & _ & _ & Hl & Hc1 & Hc2 & Hc3 & Ha & Hp & Hat).
    exists v, s', l. rewrite HL1 in Hat. now repeat (split; [assumption |]).
  - intros _ Hplain Hbase Hout. apply plain_name_truthy in Hplain as Ht.
    unfold Phi4.execute_coding_agent_v2.
    destruct (phi4_prologue E language code_file prompt mode initial_code s Hserv Ht)
      as (c0 & sa & sb & s1 & l1 & Hpa & Hpb & Hpc
          & Hr1 & Hb1 & Hf1 & Hd1 & Hl1 & Hc1 & Hc1' & Hc1'').
    destruct (loop_always_code_bug E Phi4.test_command code_file ("test_" +:+ code_file)
                test_plan Hserv Hfail Hcls (base_dir (pm s)) 2 0 3 (loop_init c0) s1 Hr1
                ltac:(rewrite HL1; reflexivity) ltac:(lia))
      as (v & s2 & l2 & Heq & Hr2 & Hg2 & Hl2 & Hc2 & Hc2' & Hc2'' & Ha & Hp & _).
    destruct Hg2 as (Hpm2 & Hk2 & Hd2).
    destruct (copy_from_project_ready code_file s2 _ Hr2 Hbase (Hk2 _ _ Hf1)
                (Hd2 _ (Hd1 _ Hout)))
      as (s3 & Hcopy & Hr3 & Hg3 & Hl3).
    destruct (cleanup_log s3) as (l4 & Hl4 & Hfs4).
    exists (generated_code v), (test_output v), (snd (cleanup s3)).
    exists (l1 ++ l2 ++ [EvCopy (base_dir (pm s)) code_file OUTPUT_DIR] ++ l4).
    split.
    + apply try_cleanup_returns.
      unfold bind at 1. rewrite Hpa. cbv beta iota.
      unfold bind at 1. rewrite Hpb. cbv beta iota.
      unfold bind at 1. rewrite Hpc. cbv beta iota zeta.
      unfold bind at 1. unfold run_test_loop. rewrite HL1, HL2. cbn [Nat.add].
      rewrite Heq. cbv beta iota.
      unfold bind at 1. rewrite Hcopy. cbv beta iota.
      rewrite Hp, Ha. reflexivity.
    + split; [rewrite Hl4, Hl3, Hl2, Hl1, <- !app_assoc; reflexivity |].
      rewrite !count_ev_app.
      rewrite !(count_ev_fs_only _ l4)
        by auto using is_repair_fs, is_test_run_fs, is_analysis_fs.
      rewrite Hc1, Hc1', Hc1'', Hc2, Hc2', Hc2''. now cbn.
Qed.

(** ** Scenario: test_bug on the first attempt, code_bug on the second,
    limits (1, 1) *)

Section TestBugThenCodeBug.

Context (E : env) (test_command : string -> list string).
Context (code_file test_file test_plan : string).
Context (label : nat -> string).
Context (HL1 : MAX_DEBUG_ATTEMPTS E = 1) (HL2 : MAX_TEST_REGEN_ATTEMPTS E = 1).
Context (Hserv : service_answers E).
Context (Hfail : tests_always_fail E).
Context (Hcls : classifier_says E label).
Context (Hfirst : label 0 = "test_bug") (Hsecond : label 1 = "code_bug").


End TestBugThenCodeBug.

(** ** The project directory after a run *)

(** [keeps_base m]: running [m] leaves the handle's [base_dir] as it is,
    whether [m] returns or raises. *)
Definition keeps_base {A} (m : M A) : Prop :=
  forall s, base_dir (pm (snd (m s))) = base_dir (pm s).

Lemma keeps_base_ret {A} (a : A) : keeps_base (ret a).
Proof. now intros s. Qed.

Lemma keeps_base_raise {A} e : keeps_base (@raise A e).
Proof. now intros s. Qed.

Lemma keeps_base_get_state : keeps_base get_state.
Proof. now intros s. Qed.

Lemma keeps_base_set_fs g : keeps_base (set_fs g).
Proof. now intros s. Qed.

Lemma keeps_base_set_current_dir d : keeps_base (set_current_dir d).
Proof. now intros s. Qed.

Lemma keeps_base_emit e : keeps_base (emit e).
Proof. now intros s. Qed.

Lemma keeps_base_bind {A B} (m : M A) (k : A -> M B) :
  keeps_base m -> (forall a, keeps_base (k a)) -> keeps_base (bind m k).
Proof.
  intros Hm Hk s. unfold bind. specialize (Hm s).
  destruct (m s) as [[a | e] s']; cbn in *; [| exact Hm].
  now rewrite Hk.
Qed.

Lemma keeps_base_try_except {A} (m : M A) h :
  keeps_base m -> (forall e, keeps_base (h e)) -> keeps_base (try_except m h).
Proof.
  intros Hm Hh s. unfold try_except. specialize (Hm s).
  destruct (m s) as [[a | e] s']; cbn in *; [exact Hm |].
  now rewrite Hh.
Qed.

Ltac keeps :=
  repeat first
    [ apply keeps_base_ret | apply keeps_base_raise | apply keeps_base_get_state
    | apply keeps_base_set_fs | apply keeps_base_set_current_dir
    | apply keeps_base_emit
    | match goal with
      | H : forall v, keeps_base (_ v) |- keeps_base _ => apply H
      | |- keeps_base (let '(_, _) := ?x in _) => destruct x
      | |- keeps_base (if ?c then _ else _) => destruct c
      | |- keeps_base (match ?x with _ => _ end) => destruct x
      end
    | apply keeps_base_try_except; [| intros ?]
    | apply keeps_base_bind; [| intros ?] ].

Lemma keeps_base_create_project : keeps_base create_project.
Proof. unfold create_project, rmtree, makedirs. keeps. Qed.









(** ** Stubs for the scenarios *)

Definition buggy_code : string := "def add(a, b): return a - b".

(** A generation service that returns the same code and tests every time
    and classifies the [n]-th failure as [label n]. *)
Definition answering (label : nat -> string)
  : list event -> string -> request -> http_outcome :=
  fun lg _ r =>
    match r with
    | ReqAnalyze _ _ => HttpContent (label (count_ev is_analysis lg))
    | _ => HttpContent buggy_code
    end.

(** A generation service that cannot be reached. *)
Definition unreachable : list event -> string -> request -> http_outcome :=
  fun _ _ _ => HttpRequestException "Connection refused".

Definition stub (debug_limit regen_limit : nat)
    (service : list event -> string -> request -> http_outcome)
    (run : proc_outcome) : env :=
  {| ollama_post := service;
     subprocess_run := fun _ _ _ _ => run;
     traceback_format_exc := fun _ => "Traceback (most recent call last): ...";
     MAX_DEBUG_ATTEMPTS := debug_limit;
     MAX_TEST_REGEN_ATTEMPTS := regen_limit |}.

Definition failing_tests : proc_outcome := Completed "" "1 failed" 1.
Definition passing_tests : proc_outcome := Completed "1 passed" "" 0.

Definition test_bug_then_code_bug (n : nat) : string :=
  match n with 0 => "test_bug" | _ => "code_bug" end.

(** A world with the output directory and a handle just constructed. *)
Definition world0 : state :=
  {| fs := {[ OUTPUT_DIR := ∅ ]};
     pm := {| base_dir := "temp_coding_project"; current_dir := None |};
     log := [] |}.

(** The same world once the project has been created. *)
Definition world1 : state :=
  {| fs := {[ OUTPUT_DIR := ∅; "temp_coding_project" := ∅ ]};
     pm := {| base_dir := "temp_coding_project";
              current_dir := Some "temp_coding_project" |};
     log := [] |}.

Lemma answering_service_answers a b label run :
  service_answers (stub a b (answering label) run).
Proof. intros lg key r. destruct r; cbn; eauto. Qed.

Lemma failing_tests_always_fail a b service :
  tests_always_fail (stub a b service failing_tests).
Proof. intros lg cmd d t. cbn. lia. Qed.

Lemma ready_world1 : ready world1 "temp_coding_project".
Proof.
  split; [reflexivity | split; [reflexivity |]].
  exists ∅. now vm_compute.
Qed.

(** ** The two limits and the loop index *)






(** ** Instances *)

Definition always (label : string) (n : nat) : string := label.

Lemma classifier_always_code_bug a b run :
  classifier_always (stub a b (answering (always "code_bug")) run) "code_bug".
Proof. intros lg code out. reflexivity. Qed.

Lemma scenario_code_budget_exhausted_witness :
  (exists v s' l,
     run_test_loop (stub 2 1 (answering (always "code_bug")) failing_tests)
       Phi4.test_command "calc.py" "test_calc.py"
       "test add" buggy_code world1 = (Ret v, s')
     /\ log s' = log world1 ++ l
     /\ count_ev is_repair l = 2
     /\ count_ev is_test_run l = 3
     /\ count_ev is_analysis l = 3
     /\ attempt v = Some 2
     /\ test_passed v = false
     /\ analysis_result v = "code_bug")
  /\ (exists last_code output s' l,
        Phi4.execute_coding_agent_v2
          (stub 2 1 (answering (always "code_bug")) failing_tests)
          "python" "calc.py" "add two numbers" "test add" "generate" None world0
        = (Ret (Phi4.failure_answer (Py.path_join OUTPUT_DIR "calc.py")
                  Phi4.code_budget_message last_code output), s')
        /\ log s' = log world0 ++ l
        /\ count_ev is_repair l = 2
        /\ count_ev is_test_run l = 3
        /\ count_ev is_analysis l = 3).
Proof.
  destruct (scenario_code_budget_exhausted
              (stub 2 1 (answering (always "code_bug")) failing_tests)
              Phi4.test_command "python" "calc.py" "test_calc.py"
              "add two numbers" "test add" "generate" None world1
              "temp_coding_project" buggy_code
              eq_refl eq_refl
              (answering_service_answers 2 1 (always "code_bug") failing_tests)
              (failing_tests_always_fail 2 1 (answering (always "code_bug")))
              (classifier_always_code_bug 2 1 failing_tests) eq_refl) as [Hloop _].
  destruct (scenario_code_budget_exhausted
              (stub 2 1 (answering (always "code_bug")) failing_tests)
              Phi4.test_command "python" "calc.py" "test_calc.py"
              "add two numbers" "test add" "generate" None world0
              "temp_coding_project" buggy_code
              eq_refl eq_refl
              (answering_service_answers 2 1 (always "code_bug") failing_tests)
              (failing_tests_always_fail 2 1 (answering (always "code_bug")))
              (classifier_always_code_bug 2 1 failing_tests) eq_refl) as [_ Htop].
  split.
  - apply Hloop; [apply ready_world1 | reflexivity].
  - apply Htop; [reflexivity | reflexivity | discriminate | exists ∅; now vm_compute].
Defined.



Definition pytest_missing : exn :=
  Exn FileNotFoundError "[Errno 2] No such file or directory: 'pytest'".

Lemma run_command_exception_witness :
  run_command (stub 3 2 unreachable (ProcException pytest_missing))
    ["pytest"; "-q"; "--tb=no"; "test_calc.py"] 60 world1
  = (Ret ("",
          "Error: Failed to execute command. Details: [Errno 2] No such file or directory: 'pytest'",
          1%Z),
     logged world1 [EvSubprocess ["pytest"; "-q"; "--tb=no"; "test_calc.py"]
                      "temp_coding_project" 60]).
Proof.
  apply (run_command_exception (stub 3 2 unreachable (ProcException pytest_missing))
           world1 ["pytest"; "-q"; "--tb=no"; "test_calc.py"] 60
           "temp_coding_project" pytest_missing); reflexivity.
Defined.




(** ** The failure classifier *)

Lemma normalize_three_way response :
  normalize response ∈ ["code_bug"; "test_bug"; "cannot_determine"]
  /\ (Py.lower (Py.strip response) ∉ ["code_bug"; "test_bug"] ->
      normalize response = "cannot_determine")
  /\ (normalize response = "code_bug" <-> Py.lower (Py.strip response) = "code_bug")
  /\ (normalize response = "test_bug" <-> Py.lower (Py.strip response) = "test_bug").
Proof.
  unfold normalize.
  destruct (bool_decide (Py.lower (Py.strip response) ∈ ["code_bug"; "test_bug"])) eqn:Hd;
    cbn [negb].
  - apply bool_decide_eq_true_1 in Hd.
    split; [rewrite !elem_of_cons in *; tauto |].
    split; [intros Hn; contradiction | tauto].
  - apply bool_decide_eq_false_1 in Hd.
    split; [rewrite !elem_of_cons; tauto |]. split; [reflexivity |].
    split; (split; [discriminate |
                    intros H; exfalso; apply Hd; rewrite H, !elem_of_cons; tauto]).
Qed.

(** The classifier of the working variants: whatever the analyzer model
    says, and also when it cannot be reached, the result is one of the
    three labels, and it is cannot_determine unless the response, stripped
    and lower-cased, is one of the two actionable labels. *)
Lemma analyze_test_failure_three_way E code out s :
  match fst (analyze_test_failure E code out s) with
  | Ret a => a ∈ ["code_bug"; "test_bug"; "cannot_determine"]
  | Raise e => ollama_post E (log s) "analyzer" (ReqAnalyze code out)
               = HttpOtherException e
  end.
Proof.
  rewrite analyze_test_failure_eq. cbn [fst].
  destruct (ollama_post E _ _ _); cbn; [apply normalize_three_way .. | reflexivity].
Qed.

Lemma a3b_analyze_test_failure_eq E code out s :
  fst (A3b.analyze_test_failure E code out s)
  = Ret (if A3b.contains "code"
              (Py.lower (Py.strip
                 match ollama_post E (log s) "analyzer" (ReqAnalyze code out) with
                 | HttpContent content => Py.strip content
                 | HttpRequestException e => A3b.api_error e
                 | HttpOtherException e => A3b.api_error (exn_msg e)
                 end))
         then "code_bug" else "test_bug").
Proof.
  unfold A3b.analyze_test_failure, A3b.call_ollama_api, bind, get_state, emit, ret.
  cbn. destruct (ollama_post E _ _ _); reflexivity.
Qed.

(** C5 (where the code departs from it). [analyze_test_failure] of
    experiment2/fail/qwen3:30b-a3b.py never returns cannot_determine: it
    answers code_bug or test_bug for every response.  The response
    cannot_determine becomes test_bug, and a response that merely contains
    the word code becomes code_bug; on the same responses the classifier of
    the working variants returns cannot_determine. *)
Theorem a3b_classifier_defaults (E : env) (code out : string) (s : state) :
  (fst (A3b.analyze_test_failure E code out s) = Ret "code_bug"
   \/ fst (A3b.analyze_test_failure E code out s) = Ret "test_bug")
  /\ fst (A3b.analyze_test_failure
            (stub 1 1 (answering (always "cannot_determine")) failing_tests)
            buggy_code "1 failed" world1) = Ret "test_bug"
  /\ fst (A3b.analyze_test_failure
            (stub 1 1 (answering (always "I cannot tell from this code.")) failing_tests)
            buggy_code "1 failed" world1) = Ret "code_bug"
  /\ fst (analyze_test_failure
            (stub 1 1 (answering (always "cannot_determine")) failing_tests)
            buggy_code "1 failed" world1) = Ret "cannot_determine"
  /\ fst (analyze_test_failure
            (stub 1 1 (answering (always "I cannot tell from this code.")) failing_tests)
            buggy_code "1 failed" world1) = Ret "cannot_determine".
Proof.
  split; [| now vm_compute].
  rewrite a3b_analyze_test_failure_eq.
  destruct (A3b.contains _ _); [now left | now right].
Qed.

(** ** An unreachable generation service *)











(** ** Modes and seed code *)

















(** A run that raises: the first response cannot be decoded, the exception
    leaves [generate_code_and_tests], and the project directory, created
    before, has been removed on the way out. *)
Definition undecodable : list event -> string -> request -> http_outcome :=
  fun _ _ _ =>
    HttpOtherException (Exn ValueError "Expecting value: line 1 column 1 (char 0)").

Example raising_run_cleans_up :
  let run := Qwen3Coder.generate_code_and_tests (stub 3 2 undecodable failing_tests)
               "add two numbers" "python" (Some "test add") world0 in
  fst run = Raise (Exn ValueError "Expecting value: line 1 column 1 (char 0)")
  /\ log (snd run) = [EvMakedirs "temp_coding_project";
                      EvRequest "coder" (ReqCode "python" "add two numbers");
                      EvRmtree "temp_coding_project"]
  /\ path_exists (fs (snd run)) "temp_coding_project" = false.
Proof. vm_compute. repeat split. Qed.

(** Scenario: the first tests pass.  One attempt, no classification. *)
Example first_attempt_passes :
  let run := Qwen3Coder.generate_code_and_tests
               (stub 3 2 (answering (always "code_bug")) passing_tests)
               "add two numbers" "python" (Some "test add") world0 in
  fst run = Ret (buggy_code, buggy_code)
  /\ count_ev is_test_run (log (snd run)) = 1
  /\ count_ev is_analysis (log (snd run)) = 0.
Proof. vm_compute. repeat split. Qed.

(** * Further properties of the code *)

(** ** [ProjectManager]: files and directories *)

(** What [write_file] does on a live project. *)
Lemma write_file_frame n c s d :
  ready s d ->
  exists s',
    write_file n c s = (Ret tt, s')
    /\ ready s' d
    /\ pm s' = pm s
    /\ log s' = log s ++ [EvWrite d n c]
    /\ (forall d' n',
          file_lookup (fs s') d' n'
          = if bool_decide (d' = d /\ n' = n) then Some c
            else file_lookup (fs s) d' n')
    /\ (forall d', d' <> d -> fs s' !! d' = fs s !! d').
Proof.
  intros (Hc & Ht & [files Hf]).
  unfold write_file, bind, get_state. rewrite Hc; cbn. rewrite Ht; cbn.
  unfold open_write, bind, get_state, emit, set_fs; cbn. rewrite Ht, Hf; cbn.
  eexists. split; [reflexivity |]. cbn.
  split; [| split; [reflexivity | split; [reflexivity | split]]].
  - split; [exact Hc | split; [exact Ht |]]. cbn. rewrite lookup_insert_eq. eauto.
  - intros d' n'. unfold file_lookup. case_bool_decide as Hdn.
    + destruct Hdn as [-> ->]. rewrite Ht, lookup_insert_eq. cbn.
      apply lookup_insert_eq.
    + destruct (Py.truthy d'); [| reflexivity].
      destruct (decide (d = d')) as [<- | Hne].
      * rewrite lookup_insert_eq, Hf. cbn.
        rewrite lookup_insert_ne; [reflexivity | intros <-; now apply Hdn].
      * now rewrite lookup_insert_ne.
  - intros d' Hne. now rewrite lookup_insert_ne.
Qed.

Lemma read_file_ready n s d :
  ready s d ->
  read_file n s =
    (match file_lookup (fs s) d n with
     | Some content => Ret (Py.universal_newlines content)
     | None => Raise (Exn FileNotFoundError ("File not found: " +:+ n))
     end, s).
Proof.
  intros (Hc & Ht & _). unfold read_file, bind, get_state, raise, ret.
  rewrite Hc; cbn. rewrite Ht; cbn. destruct (file_lookup _ _ _); reflexivity.
Qed.

(** Text without carriage returns reads back as it is. *)
Lemma universal_newlines_id content :
  Py.without Py.cr content = true -> Py.universal_newlines content = content.
Proof.
  induction content as [|c content IH]; [reflexivity |].
  cbn [Py.without Py.universal_newlines]. intros H.
  apply andb_true_iff in H as [Hc H]. apply negb_true_iff in Hc.
  rewrite Hc. now rewrite IH.
Qed.

(** X1. On a live project, a file written under a plain name reads back
    with the content written, its line ends read as universal newlines (so
    content without carriage returns reads back unchanged, and the last
    write wins); reading any other plain name gives what it gave before
    the write. *)
Theorem write_then_read (file_name content : string) (s : state) (d : string) :
  ready s d ->
  plain_name file_name = true ->
  exists s',
    write_file file_name content s = (Ret tt, s')
    /\ read_file file_name s' = (Ret (Py.universal_newlines content), s')
    /\ (Py.without Py.cr content = true ->
        read_file file_name s' = (Ret content, s'))
    /\ forall other, plain_name other = true -> other <> file_name ->
         fst (read_file other s') = fst (read_file other s).
Proof.
  intros Hr _.
  destruct (write_file_frame file_name content s d Hr)
    as (s' & Hw & Hr' & _ & _ & Hf & _).
  assert (read_file file_name s' = (Ret (Py.universal_newlines content), s')) as Hread.
  { rewrite (read_file_ready _ _ d Hr'), Hf. now rewrite bool_decide_eq_true_2. }
  exists s'. split; [exact Hw |]. split; [exact Hread |]. split.
  - intros Hcr. rewrite Hread. now rewrite universal_newlines_id.
  - intros other _ Hne.
    rewrite (read_file_ready _ _ d Hr'), (read_file_ready _ _ d Hr), Hf.
    rewrite bool_decide_eq_false_2 by (intros [_ ?]; contradiction).
    now destruct (file_lookup (fs s) d other).
Qed.

(** Code with Windows line ends. *)
Definition crlf_code : string :=
  String.concat (String Py.cr (String Py.lf EmptyString))
    ["def add(a, b):"; "    return a + b"; ""].

Lemma write_then_read_witness :
  (exists s',
     write_file "calc.py" buggy_code world1 = (Ret tt, s')
     /\ read_file "calc.py" s' = (Ret (Py.universal_newlines buggy_code), s')
     /\ (Py.without Py.cr buggy_code = true ->
         read_file "calc.py" s' = (Ret buggy_code, s'))
     /\ forall other, plain_name other = true -> other <> "calc.py" ->
          fst (read_file other s') = fst (read_file other world1))
  /\ (exists s',
        write_file "calc.py" crlf_code world1 = (Ret tt, s')
        /\ read_file "calc.py" s'
           = (Ret (String.concat Py.nl ["def add(a, b):"; "    return a + b"; ""]),
              s')).
Proof.
  split.
  - apply (write_then_read "calc.py" buggy_code world1 "temp_coding_project");
      [apply ready_world1 | reflexivity].
  - destruct (write_then_read "calc.py" crlf_code world1 "temp_coding_project"
                ready_world1 eq_refl) as (s' & Hw & Hread & _).
    exists s'. split; [exact Hw | exact Hread].
Defined.

Lemma create_project_fresh (s : state) :
  Py.truthy (base_dir (pm s)) = true ->
  exists s',
    create_project s = (Ret tt, s')
    /\ current_dir (pm s') = Some (base_dir (pm s))
    /\ fs s' !! base_dir (pm s) = Some ∅
    /\ (forall d, d <> base_dir (pm s) -> fs s' !! d = fs s !! d).
Proof.
  intros Ht. unfold create_project, bind, get_state.
  destruct (path_exists (fs s) (base_dir (pm s))) eqn:Hex.
  - unfold rmtree, makedirs, bind, get_state, emit, set_fs, set_current_dir; cbn.
    rewrite Ht, path_exists_delete; cbn.
    eexists. split; [reflexivity |]. cbn.
    split; [reflexivity |]. split; [apply lookup_insert_eq |].
    intros d Hne. now rewrite lookup_insert_ne, lookup_delete_ne.
  - unfold ret, makedirs, bind, get_state, emit, set_fs, set_current_dir; cbn.
    rewrite Ht, Hex; cbn.
    eexists. split; [reflexivity |]. cbn.
    split; [reflexivity |]. split; [apply lookup_insert_eq |].
    intros d Hne. now rewrite lookup_insert_ne.
Qed.

(** X2. [create_project] on a handle whose directory has a plain name
    returns and leaves an empty project directory, whatever was there
    before: [read_file] of any plain name then raises [FileNotFoundError].
    No other directory of the working directory is touched. *)
Theorem create_project_starts_empty (s : state) :
  plain_name (base_dir (pm s)) = true ->
  exists s',
    create_project s = (Ret tt, s')
    /\ current_dir (pm s') = Some (base_dir (pm s))
    /\ fs s' !! base_dir (pm s) = Some ∅
    /\ (forall file_name,
          plain_name file_name = true ->
          read_file file_name s'
          = (Raise (Exn FileNotFoundError ("File not found: " +:+ file_name)), s'))
    /\ (forall d, plain_name d = true -> d <> base_dir (pm s) ->
                  fs s' !! d = fs s !! d).
Proof.
  intros Hplain. apply plain_name_truthy in Hplain as Ht.
  destruct (create_project_fresh s Ht) as (s' & Hcp & Hc & Hf & Hd).
  exists s'. split; [exact Hcp |]. split; [exact Hc |]. split; [exact Hf |].
  split; [| intros d _; apply Hd].
  intros n _. unfold read_file, bind, get_state, raise. rewrite Hc; cbn. rewrite Ht; cbn.
  unfold file_lookup. rewrite Ht, Hf. cbn. now rewrite lookup_empty.
Qed.

(** A world in which an earlier run left files behind. *)
Definition stale_world : state :=
  {| fs := {[ "temp_coding_project" := {[ "old.py" := "print(1)" ]} ]};
     pm := {| base_dir := "temp_coding_project"; current_dir := None |};
     log := [] |}.

Lemma create_project_starts_empty_witness :
  exists s',
    create_project stale_world = (Ret tt, s')
    /\ current_dir (pm s') = Some "temp_coding_project"
    /\ fs s' !! "temp_coding_project" = Some ∅
    /\ (forall file_name,
          plain_name file_name = true ->
          read_file file_name s'
          = (Raise (Exn FileNotFoundError ("File not found: " +:+ file_name)), s'))
    /\ (forall d, plain_name d = true -> d <> "temp_coding_project" ->
                  fs s' !! d = fs stale_world !! d).
Proof.
  apply (create_project_starts_empty stale_world). reflexivity.
Defined.

Lemma cleanup_other_dirs (s : state) (d : string) :
  d <> base_dir (pm s) -> fs (snd (cleanup s)) !! d = fs s !! d.
Proof.
  intros Hne.
  destruct (path_exists (fs s) (base_dir (pm s))) eqn:H.
  - rewrite cleanup_present by assumption. cbn. now rewrite lookup_delete_ne.
  - now rewrite cleanup_absent.
Qed.

(** X3. [cleanup] of a project directory with a plain name removes
    nothing else: every other directory of the working directory keeps its
    files, and the handle keeps its directory name. *)
Theorem cleanup_frame (s : state) (d : string) :
  plain_name (base_dir (pm s)) = true ->
  plain_name d = true ->
  d <> base_dir (pm s) ->
  fs (snd (cleanup s)) !! d = fs s !! d
  /\ base_dir (pm (snd (cleanup s))) = base_dir (pm s).
Proof.
  intros _ _ Hne. split; [now apply cleanup_other_dirs | apply cleanup_base_dir].
Qed.

Lemma cleanup_frame_witness :
  fs (snd (cleanup world1)) !! OUTPUT_DIR = fs world1 !! OUTPUT_DIR
  /\ base_dir (pm (snd (cleanup world1))) = base_dir (pm world1).
Proof.
  apply (cleanup_frame world1 OUTPUT_DIR); [reflexivity | reflexivity | discriminate].
Defined.

(** ** The generation adapter *)

(** X4. [call_ollama_api] with a key that is not in the [MODELS] table
    raises [ValueError] before anything is sent (the world is unchanged);
    with one of the five configured keys it sends exactly one request,
    whatever comes back. *)
Theorem call_ollama_api_model_key (E : env) (messages : request)
    (model_key : string) (s : state) :
  (model_key ∉ ["coder"; "tester"; "debugger"; "analyzer"; "planner"] ->
   call_ollama_api E messages model_key s
   = (Raise (Exn ValueError ("Model key '" +:+ model_key +:+ "' not found in config.")),
      s))
  /\ (model_key ∈ ["coder"; "tester"; "debugger"; "analyzer"; "planner"] ->
      snd (call_ollama_api E messages model_key s)
      = logged s [EvRequest model_key messages]).
Proof.
  split.
  - intros Hnot. unfold call_ollama_api.
    assert (MODELS_get model_key = None) as ->; [| reflexivity].
    unfold MODELS_get, MODELS. cbn [List.find fst snd].
    repeat match goal with
           | |- context [String.eqb ?a model_key] =>
               destruct (String.eqb_spec a model_key) as [<- | _];
               [exfalso; apply Hnot; rewrite !elem_of_cons; tauto |]
           end.
    reflexivity.
  - intros Hin.
    assert (MODELS_get model_key = Some "qwen3-coder:latest") as Hk.
    { rewrite !elem_of_cons in Hin.
      destruct Hin as [-> | [-> | [-> | [-> | [-> | Hin]]]]];
        [reflexivity .. | now apply elem_of_nil in Hin]. }
    now rewrite (call_ollama_api_eq E messages model_key _ s Hk).
Qed.

Lemma call_ollama_api_model_key_witness :
  call_ollama_api (stub 3 2 unreachable failing_tests)
    (ReqCode "python" "add two numbers") "critic" world1
  = (Raise (Exn ValueError "Model key 'critic' not found in config."), world1)
  /\ snd (call_ollama_api (stub 3 2 unreachable failing_tests)
            (ReqCode "python" "add two numbers") "coder" world1)
     = logged world1 [EvRequest "coder" (ReqCode "python" "add two numbers")].
Proof.
  destruct (call_ollama_api_model_key (stub 3 2 unreachable failing_tests)
              (ReqCode "python" "add two numbers") "critic" world1) as [Hbad _].
  destruct (call_ollama_api_model_key (stub 3 2 unreachable failing_tests)
              (ReqCode "python" "add two numbers") "coder" world1) as [_ Hgood].
  split.
  - apply Hbad. rewrite !elem_of_cons, elem_of_nil.
    intros [H | [H | [H | [H | [H | []]]]]]; discriminate H.
  - apply Hgood. rewrite !elem_of_cons. tauto.
Defined.

(** ** Code fences *)

Definition backtick : ascii := "`"%char.

Lemma prefix_cons a p c s :
  String.prefix (String a p) (String c s)
  = if ascii_dec a c then String.prefix p s else false.
Proof. reflexivity. Qed.

Lemma prefix_empty s : String.prefix "" s = true.
Proof. now destruct s. Qed.

Lemma prefix_trans p q s :
  String.prefix p q = true -> String.prefix q s = true -> String.prefix p s = true.
Proof.
  revert q s. induction p as [|a p IH]; intros q s Hpq Hqs; [now destruct s |].
  destruct q as [|b q]; [discriminate |]. destruct s as [|c s]; [discriminate |].
  rewrite prefix_cons in *.
  destruct (ascii_dec a b) as [<- |]; [| discriminate].
  destruct (ascii_dec a c) as [<- |]; [| discriminate].
  now apply (IH q).
Qed.

Lemma contains_cons needle c s :
  A3b.contains needle (String c s)
  = String.prefix needle (String c s) || A3b.contains needle s.
Proof. reflexivity. Qed.

Lemma contains_tail needle c s :
  A3b.contains needle (String c s) = false -> A3b.contains needle s = false.
Proof. rewrite contains_cons. now intros [_ H]%orb_false_iff. Qed.

(** A text contains whatever one of its prefixes contains. *)
Lemma contains_prefix needle p : forall s,
  String.prefix p s = true ->
  A3b.contains needle p = true -> A3b.contains needle s = true.
Proof.
  induction p as [|a p IH]; intros s Hps Hc.
  - destruct needle; [| discriminate]. now destruct s.
  - destruct s as [|c s]; [discriminate |].
    pose proof Hps as Hps'. rewrite prefix_cons in Hps'.
    destruct (ascii_dec a c) as [<- |]; [| discriminate].
    rewrite contains_cons in *. apply orb_true_iff in Hc as [Hc | Hc].
    + now rewrite (prefix_trans _ _ _ Hc Hps).
    + rewrite (IH s Hps' Hc). apply orb_true_r.
Qed.

Lemma rstrip_prefix s : String.prefix (Py.rstrip s) s = true.
Proof.
  induction s as [|c s IH]; [reflexivity |]. cbn [Py.rstrip].
  destruct (Py.rstrip s) as [|b r] eqn:Hr.
  - destruct (Py.is_space c); [reflexivity |].
    rewrite prefix_cons. now destruct (ascii_dec c c).
  - rewrite prefix_cons. now destruct (ascii_dec c c).
Qed.

Lemma contains_lstrip needle s :
  A3b.contains needle s = false -> A3b.contains needle (Py.lstrip s) = false.
Proof.
  induction s as [|c s IH]; intros H; [exact H |]. cbn [Py.lstrip].
  destruct (Py.is_space c); [apply IH, (contains_tail _ _ _ H) | exact H].
Qed.

(** Stripping does not bring in anything. *)
Lemma contains_strip needle s :
  A3b.contains needle s = false -> A3b.contains needle (Py.strip s) = false.
Proof.
  intros H. unfold Py.strip. apply contains_lstrip in H.
  destruct (A3b.contains needle (Py.rstrip (Py.lstrip s))) eqn:Hc; [| reflexivity].
  now rewrite (contains_prefix _ _ _ (rstrip_prefix _) Hc) in H.
Qed.

Lemma prefix_fence c s :
  String.prefix "```" (String c s)
  = if ascii_dec backtick c then String.prefix "``" s else false.
Proof. reflexivity. Qed.

Lemma no_double_no_fence s :
  String.prefix "``" s = false ->
  String.prefix "```" s = false /\ String.prefix "```python" s = false.
Proof.
  intros H. split.
  - destruct (String.prefix "```" s) eqn:Hp; [| reflexivity].
    now rewrite (prefix_trans "``" "```" s eq_refl Hp) in H.
  - destruct (String.prefix "```python" s) eqn:Hp; [| reflexivity].
    now rewrite (prefix_trans "``" "```python" s eq_refl Hp) in H.
Qed.

Lemma sub_fences_keep c s :
  String.prefix "```" (String c s) = false ->
  Py.sub_fences_from 0 (String c s) = String c (Py.sub_fences_from 0 s).
Proof.
  intros H. cbn [Py.sub_fences_from].
  assert (String.prefix "```python" (String c s) = false) as ->.
  { destruct (String.prefix "```python" (String c s)) eqn:Hp; [| reflexivity].
    rewrite (prefix_trans "```" "```python" _ eq_refl Hp) in H. discriminate. }
  now rewrite H.
Qed.

Lemma sub_fences_no_single s :
  String.prefix "`" s = false -> String.prefix "`" (Py.sub_fences_from 0 s) = false.
Proof.
  destruct s as [|c s]; [reflexivity |]. intros H.
  rewrite sub_fences_keep.
  - rewrite prefix_cons, prefix_empty in *. now destruct (ascii_dec _ c).
  - rewrite prefix_fence. rewrite prefix_cons, prefix_empty in H.
    now destruct (ascii_dec _ c).
Qed.

Lemma sub_fences_no_double s :
  String.prefix "``" s = false -> String.prefix "``" (Py.sub_fences_from 0 s) = false.
Proof.
  destruct s as [|c s]; [reflexivity |]. intros H.
  rewrite sub_fences_keep by apply (no_double_no_fence _ H).
  rewrite prefix_cons in *.
  destruct (ascii_dec _ c); [| reflexivity]. now apply sub_fences_no_single.
Qed.

Lemma sub_fences_from_no_fence s : forall skip,
  A3b.contains "```" (Py.sub_fences_from skip s) = false.
Proof.
  induction s as [|c s IH]; intros skip; [reflexivity |].
  destruct skip as [|k]; [| apply IH]. cbn [Py.sub_fences_from].
  destruct (String.prefix "```python" (String c s)); [apply IH |].
  destruct (String.prefix "```" (String c s)) eqn:Hf; [apply IH |].
  rewrite contains_cons, IH, orb_false_r, prefix_fence.
  rewrite prefix_fence in Hf.
  destruct (ascii_dec backtick c); [| reflexivity].
  now apply sub_fences_no_double.
Qed.

(** X5. The text the code-bearing helpers return never contains a code
    fence: whatever the service answers, the results of [generate_code],
    [generate_unit_tests] and [debug_code] are free of three consecutive
    backticks (removing the fences and stripping leaves none behind and
    creates none). *)
Theorem helpers_return_no_fence (E : env) (a b c : string) (i : option string)
    (s : state) :
  (forall raw, A3b.contains "```" (Py.strip (Py.sub_fences raw)) = false)
  /\ match fst (generate_code E a b i c s) with
     | Ret code => A3b.contains "```" code = false
     | Raise _ => True
     end
  /\ match fst (generate_unit_tests E a b c s) with
     | Ret tests => A3b.contains "```" tests = false
     | Raise _ => True
     end
  /\ match fst (debug_code E a b c s) with
     | Ret code => A3b.contains "```" code = false
     | Raise _ => True
     end.
Proof.
  assert (forall raw, A3b.contains "```" (Py.strip (Py.sub_fences raw)) = false) as H
    by (intros raw; apply contains_strip, sub_fences_from_no_fence).
  split; [exact H |].
  rewrite generate_code_step, generate_unit_tests_eq, debug_code_eq. cbn [fst].
  repeat split;
    match goal with |- context [adapter_reply ?o] => destruct o end; cbn;
    try exact I; apply H.
Qed.

(** ** The loop, read backwards from its result *)

Lemma bind_ret_inv {A B} (m : M A) (k : A -> M B) s b s' :
  bind m k s = (Ret b, s') ->
  exists a s1, m s = (Ret a, s1) /\ k a s1 = (Ret b, s').
Proof.
  unfold bind. destruct (m s) as [[a | e] s1]; [eauto | discriminate].
Qed.

Lemma res_map_ret_inv {A B} (g : A -> B) r b :
  res_map g r = Ret b -> exists a, r = Ret a /\ b = g a.
Proof. destruct r; cbn; [intros [= <-]; eauto | discriminate]. Qed.

(** The outcome of the test command as [run_command] reports it. *)
Definition reported (o : proc_outcome) : string * string * Z :=
  match o with
  | Completed stdout stderr returncode => (stdout, stderr, returncode)
  | TimeoutExpired => timeout_result
  | ProcException e =>
      ("", "Error: Failed to execute command. Details: " +:+ exn_msg e, 1%Z)
  end.

Lemma reported_zero o stdout stderr :
  reported o = (stdout, stderr, 0%Z) -> o = Completed stdout stderr 0.
Proof. destruct o; cbn; [now intros [= -> -> ->] | discriminate ..]. Qed.

Section LoopInversion.

Context (E : env) (test_command : string -> list string).
Context (code_file test_file test_plan : string).

Local Abbreviation loop := (test_loop E test_command code_file test_file test_plan).
Local Abbreviation after_run := (on_result E test_command code_file test_file test_plan).
Local Abbreviation branch := (on_analysis E test_command code_file test_file test_plan).

(** An iteration that does not raise before the test command has run. *)
Lemma iteration_inv k rest v s d v' s' :
  ready s d ->
  loop (k :: rest) v s = (Ret v', s') ->
  exists tests s3,
    let request := EvRequest "tester" (ReqTests code_file (generated_code v) test_plan) in
    ready s3 d
    /\ pm s3 = pm s
    /\ log s3 = log s ++ [request; EvWrite d test_file tests;
                          EvSubprocess (test_command test_file) d 60]
    /\ (forall d' n',
          file_lookup (fs s3) d' n'
          = if bool_decide (d' = d /\ n' = test_file) then Some tests
            else file_lookup (fs s) d' n')
    /\ (forall d', d' <> d -> fs s3 !! d' = fs s !! d')
    /\ after_run k rest v tests
         (reported (subprocess_run E (log s ++ [request; EvWrite d test_file tests])
                      (test_command test_file) d 60)) s3 = (Ret v', s').
Proof.
  intros Hr H. rewrite test_loop_cons in H.
  apply bind_ret_inv in H as (tests & s1 & Hgen & H).
  rewrite generate_unit_tests_eq in Hgen. injection Hgen as Hgen <-.
  apply bind_ret_inv in H as ([] & s2 & Hw & H).
  set (s1 := logged s _) in *.
  assert (ready s1 d) as Hr1 by exact Hr.
  destruct (write_file_frame test_file tests s1 d Hr1)
    as (s2' & Hw' & Hr2 & Hp2 & Hl2 & Hf2 & Hd2).
  rewrite Hw' in Hw. injection Hw as ->.
  apply bind_ret_inv in H as (result & s3 & Hrun & H).
  rewrite (run_command_step E _ _ s2 d Hr2) in Hrun. injection Hrun as <- <-.
  assert (log s2 = log s ++ [EvRequest "tester"
                               (ReqTests code_file (generated_code v) test_plan);
                             EvWrite d test_file tests]) as Hl
    by (rewrite Hl2; subst s1; cbn; now rewrite <- app_assoc).
  exists tests, (logged s2 [EvSubprocess (test_command test_file) d 60]).
  cbv zeta. split; [exact Hr2 |]. split; [exact Hp2 |].
  split; [cbn; rewrite Hl; now rewrite <- app_assoc |].
  split; [exact Hf2 |]. split; [exact Hd2 |].
  rewrite <- Hl. exact H.
Qed.

(** A failing test run that does not raise in the classification. *)
Lemma failing_result_inv k rest v tests stdout stderr returncode s v' s' :
  (returncode =? 0)%Z = false ->
  after_run k rest v tests (stdout, stderr, returncode) s = (Ret v', s') ->
  exists analysis,
    branch k rest v tests (stdout +:+ stderr) analysis
      (logged s [EvRequest "analyzer"
                   (ReqAnalyze (generated_code v) (stdout +:+ stderr))])
    = (Ret v', s').
Proof.
  intros Hrc H. cbn [on_result] in H. rewrite Hrc in H.
  apply bind_ret_inv in H as (analysis & s1 & Ha & H).
  rewrite analyze_test_failure_eq in Ha. injection Ha as _ <-.
  eauto.
Qed.

(** The three ways out of the branch. *)
Lemma branch_inv k rest v tests output analysis s d v' s' :
  ready s d ->
  branch k rest v tests output analysis s = (Ret v', s') ->
  (exists code s2,
     ready s2 d /\ pm s2 = pm s
     /\ log s2 = log s ++ [EvRequest "debugger"
                             (ReqDebug (generated_code v) output test_file);
                           EvWrite d code_file code]
     /\ (forall d' n',
           file_lookup (fs s2) d' n'
           = if bool_decide (d' = d /\ n' = code_file) then Some code
             else file_lookup (fs s) d' n')
     /\ (forall d', d' <> d -> fs s2 !! d' = fs s !! d')
     /\ loop rest (loop_vars_at k v code tests output analysis) s2 = (Ret v', s'))
  \/ loop rest (loop_vars_at k v (generated_code v) tests output analysis) s
     = (Ret v', s')
  \/ (v' = loop_vars_at k v (generated_code v) tests output analysis /\ s' = s).
Proof.
  intros Hr H. unfold on_analysis in H.
  destruct (_ && _).
  - left. apply bind_ret_inv in H as (code & s1 & Hd & H).
    rewrite debug_code_eq in Hd. injection Hd as Hd <-.
    apply bind_ret_inv in H as ([] & s2 & Hw & H).
    set (s1 := logged s _) in *.
    assert (ready s1 d) as Hr1 by exact Hr.
    destruct (write_file_frame code_file code s1 d Hr1)
      as (s2' & Hw' & Hr2 & Hp2 & Hl2 & Hf2 & Hd2).
    rewrite Hw' in Hw. injection Hw as ->.
    exists code, s2. split; [exact Hr2 |]. split; [exact Hp2 |].
    split; [rewrite Hl2; subst s1; cbn; now rewrite <- app_assoc |].
    split; [exact Hf2 |]. split; [exact Hd2 | exact H].
  - destruct (_ && _).
    + right. left. exact H.
    + right. right. injection H as <- <-. now split.
Qed.

End LoopInversion.

Section LoopAccounting.

Context (E : env) (test_command : string -> list string).
Context (code_file test_file test_plan : string).

Local Abbreviation loop := (test_loop E test_command code_file test_file test_plan).

(** What a returning loop has logged, as the statement of the theorem below
    has it. *)
Definition accounted (d : string) (s : state) (v' : loop_vars) (l : list event) : Prop :=
  count_ev is_test_generation l = count_ev is_test_run l
  /\ if test_passed v' then
    count_ev is_test_run l = S (count_ev is_analysis l)
    /\ exists l0 stdout stderr,
         l = l0 ++ [EvSubprocess (test_command test_file) d 60]
         /\ subprocess_run E (log s ++ l0) (test_command test_file) d 60
            = Completed stdout stderr 0
         /\ test_output v' = stdout
  else count_ev is_test_run l = count_ev is_analysis l.

Lemma accounted_shift d s s1 v' pre l :
  log s1 = log s ++ pre ->
  count_ev is_test_run pre = count_ev is_analysis pre ->
  count_ev is_test_generation pre = count_ev is_test_run pre ->
  accounted d s1 v' l -> accounted d s v' (pre ++ l).
Proof.
  intros Hl Hpre Hgen. unfold accounted. intros [Hg H].
  split; [rewrite !count_ev_app; lia |]. revert H.
  destruct (test_passed v').
  - intros (Hc & l0 & out & err & -> & Ho & Hout).
    split; [rewrite !count_ev_app in *; lia |].
    exists (pre ++ l0), out, err.
    split; [now rewrite app_assoc |]. split; [| exact Hout].
    now rewrite app_assoc, <- Hl.
  - intros Hc. rewrite !count_ev_app. lia.
Qed.

Lemma loop_accounting d range : forall v s v' s',
  ready s d ->
  test_passed v = false ->
  loop range v s = (Ret v', s') ->
  exists l, log s' = log s ++ l /\ accounted d s v' l.
Proof.
  induction range as [|k rest IH]; intros v s v' s' Hr Hp H.
  { cbn in H. injection H as <- <-. exists []. rewrite app_nil_r.
    split; [reflexivity |]. unfold accounted. split; [reflexivity |].
    now rewrite Hp. }
  destruct (iteration_inv E test_command code_file test_file test_plan
              k rest v s d v' s' Hr H)
    as (tests & s3 & Hr3 & Hp3 & Hl3 & _ & _ & Hres).
  cbv zeta in *.
  set (l0 := [EvRequest "tester" (ReqTests code_file (generated_code v) test_plan);
              EvWrite d test_file tests]) in *.
  destruct (reported (subprocess_run E (log s ++ l0) (test_command test_file) d 60))
    as [[stdout stderr] returncode] eqn:Hrep.
  destruct (returncode =? 0)%Z eqn:Hrc.
  - (* the tests pass *)
    apply Z.eqb_eq in Hrc. subst returncode.
    cbn in Hres. injection Hres as <- <-.
    exists (l0 ++ [EvSubprocess (test_command test_file) d 60]).
    split; [rewrite Hl3; subst l0; reflexivity |].
    unfold accounted. cbn [test_passed test_output].
    split; [reflexivity |].
    split; [reflexivity |]. exists l0, stdout, stderr.
    split; [reflexivity |]. split; [| reflexivity].
    now apply reported_zero.
  - destruct (failing_result_inv E test_command code_file test_file test_plan
                k rest v tests stdout stderr returncode s3 v' s' Hrc Hres)
      as (analysis & Hbr).
    set (s4 := logged s3 _) in Hbr.
    assert (ready s4 d) as Hr4 by exact Hr3.
    assert (log s4 = log s ++ l0 ++ [EvSubprocess (test_command test_file) d 60;
                                     EvRequest "analyzer"
                                       (ReqAnalyze (generated_code v)
                                          (stdout +:+ stderr))]) as Hl4
      by (subst s4 l0; cbn; rewrite Hl3, <- app_assoc; reflexivity).
    destruct (branch_inv E test_command code_file test_file test_plan
                k rest v tests _ analysis s4 d v' s' Hr4 Hbr)
      as [(code & s6 & Hr6 & _ & Hl6 & _ & _ & Hloop) | [Hloop | [-> ->]]].
    + destruct (IH (loop_vars_at k v code tests (stdout +:+ stderr) analysis)
                  s6 v' s' Hr6 Hp Hloop) as (l & Hl & Hacc).
      exists ((l0 ++ [EvSubprocess (test_command test_file) d 60;
                      EvRequest "analyzer"
                        (ReqAnalyze (generated_code v) (stdout +:+ stderr));
                      EvRequest "debugger"
                        (ReqDebug (generated_code v) (stdout +:+ stderr) test_file);
                      EvWrite d code_file code]) ++ l).
      split; [rewrite Hl, Hl6, Hl4, <- ?app_assoc; reflexivity |].
      apply (accounted_shift d s s6); [| reflexivity | reflexivity | exact Hacc].
      rewrite Hl6, Hl4, <- ?app_assoc. reflexivity.
    + destruct (IH (loop_vars_at k v (generated_code v) tests (stdout +:+ stderr)
                      analysis) s4 v' s' Hr4 Hp Hloop) as (l & Hl & Hacc).
      exists ((l0 ++ [EvSubprocess (test_command test_file) d 60;
                      EvRequest "analyzer"
                        (ReqAnalyze (generated_code v) (stdout +:+ stderr))]) ++ l).
      split; [rewrite Hl, Hl4, <- ?app_assoc; reflexivity |].
      apply (accounted_shift d s s4); [| reflexivity | reflexivity | exact Hacc].
      rewrite Hl4, <- ?app_assoc. reflexivity.
    + eexists. split; [exact Hl4 |].
      unfold accounted. cbn [loop_vars_at test_passed]. rewrite Hp.
      split; reflexivity.
Qed.

End LoopAccounting.

(** X6. In a loop that returns, tests are generated once for every test
    run, and every failing test run is followed by one classification and a
    passing one by none: when the loop ends with [test_passed] false it has
    classified as often as it ran the tests; when it ends with
    [test_passed] true it has run them once more, the last thing it did was
    a test run that completed with exit status 0, and [test_output] is the
    stdout of that run. *)
Theorem every_failure_is_classified (E : env) (test_command : string -> list string)
    (code_file test_file test_plan code : string) (s : state) (d : string)
    (v : loop_vars) (s' : state) :
  ready s d ->
  run_test_loop E test_command code_file test_file test_plan code s = (Ret v, s') ->
  exists l,
    log s' = log s ++ l
    /\ count_ev is_test_generation l = count_ev is_test_run l
    /\ if test_passed v then
         count_ev is_test_run l = S (count_ev is_analysis l)
         /\ exists l0 stdout stderr,
              l = l0 ++ [EvSubprocess (test_command test_file) d 60]
              /\ subprocess_run E (log s ++ l0) (test_command test_file) d 60
                 = Completed stdout stderr 0
              /\ test_output v = stdout
       else count_ev is_test_run l = count_ev is_analysis l.
Proof.
  intros Hr H.
  exact (loop_accounting E test_command code_file test_file test_plan d _
           (loop_init code) s v s' Hr eq_refl H).
Qed.

Lemma every_failure_is_classified_witness :
  exists v s',
    run_test_loop (stub 3 2 (answering test_bug_then_code_bug) failing_tests)
      Qwen3Coder.test_command "generated_module.py" "test_generated_module.py"
      "test add" buggy_code world1 = (Ret v, s')
    /\ exists l,
         log s' = log world1 ++ l
         /\ count_ev is_test_generation l = count_ev is_test_run l
         /\ if test_passed v then
              count_ev is_test_run l = S (count_ev is_analysis l)
              /\ exists l0 stdout stderr,
                   l = l0 ++ [EvSubprocess
                                (Qwen3Coder.test_command "test_generated_module.py")
                                "temp_coding_project" 60]
                   /\ subprocess_run
                        (stub 3 2 (answering test_bug_then_code_bug) failing_tests)
                        (log world1 ++ l0)
                        (Qwen3Coder.test_command "test_generated_module.py")
                        "temp_coding_project" 60
                      = Completed stdout stderr 0
                   /\ test_output v = stdout
            else count_ev is_test_run l = count_ev is_analysis l.
Proof.
  eexists. eexists. split; [vm_compute; reflexivity |].
  apply (every_failure_is_classified
           (stub 3 2 (answering test_bug_then_code_bug) failing_tests)
           Qwen3Coder.test_command "generated_module.py" "test_generated_module.py"
           "test add" buggy_code world1 "temp_coding_project").
  - apply ready_world1.
  - vm_compute. reflexivity.
Defined.

(** ** The files a run leaves in the output directory *)

Section LoopFiles.

Context (E : env) (test_command : string -> list string).
Context (code_file test_file test_plan : string).
Context (Hnames : code_file <> test_file).

Local Abbreviation loop := (test_loop E test_command code_file test_file test_plan).

(** The project directory holds the current code and the latest tests. *)
Definition files_in_step (d : string) (v : loop_vars) (s : state) : Prop :=
  ready s d
  /\ file_lookup (fs s) d code_file = Some (generated_code v)
  /\ forall tests, generated_tests v = Some tests ->
                   file_lookup (fs s) d test_file = Some tests.

Lemma loop_files d range : forall v s v' s',
  files_in_step d v s ->
  loop range v s = (Ret v', s') ->
  files_in_step d v' s'
  /\ pm s' = pm s
  /\ (forall d', d' <> d -> fs s' !! d' = fs s !! d')
  /\ (range <> [] -> exists tests, generated_tests v' = Some tests).
Proof.
  induction range as [|k rest IH]; intros v s v' s' (Hr & Hcode & Htests) H.
  { cbn in H. injection H as <- <-.
    split; [now split |]. split; [reflexivity |]. split; [reflexivity |].
    intros Hne. now contradiction Hne. }
  destruct (iteration_inv E test_command code_file test_file test_plan
              k rest v s d v' s' Hr H)
    as (tests & s3 & Hr3 & Hp3 & _ & Hf3 & Hd3 & Hres).
  cbv zeta in Hres.
  assert (file_lookup (fs s3) d code_file = Some (generated_code v)) as Hcode3.
  { rewrite Hf3, bool_decide_eq_false_2; [exact Hcode | now intros [_ ?]]. }
  assert (file_lookup (fs s3) d test_file = Some tests) as Htests3.
  { rewrite Hf3, bool_decide_eq_true_2; [reflexivity | now split]. }
  destruct (reported _) as [[stdout stderr] returncode].
  destruct (returncode =? 0)%Z eqn:Hrc.
  - cbn in Hres. rewrite Hrc in Hres. injection Hres as <- <-. cbn.
    split; [split; [exact Hr3 | split; [exact Hcode3 | now intros t [= <-]]] |].
    split; [exact Hp3 |]. split; [exact Hd3 | eauto].
  - destruct (failing_result_inv E test_command code_file test_file test_plan
                k rest v tests stdout stderr returncode s3 v' s' Hrc Hres)
      as (analysis & Hbr).
    set (s4 := logged s3 _) in Hbr.
    assert (ready s4 d) as Hr4 by exact Hr3.
    destruct (branch_inv E test_command code_file test_file test_plan
                k rest v tests _ analysis s4 d v' s' Hr4 Hbr)
      as [(code & s6 & Hr6 & Hp6 & _ & Hf6 & Hd6 & Hloop) | [Hloop | [-> ->]]].
    + destruct (IH (loop_vars_at k v code tests (stdout +:+ stderr) analysis)
                  s6 v' s') as (Hstep & Hp & Hd & _); [| exact Hloop |].
      * split; [exact Hr6 |]. cbn. split.
        -- rewrite Hf6, bool_decide_eq_true_2; [reflexivity | now split].
        -- intros t [= <-]. rewrite Hf6, bool_decide_eq_false_2; [exact Htests3 |].
           intros [_ Heq]. now apply Hnames.
      * split; [exact Hstep |]. split; [now rewrite Hp, Hp6 |].
        split; [| intros _].
        -- intros d' Hne. rewrite Hd, Hd6 by exact Hne. now apply Hd3.
        -- destruct rest as [|k' rest'].
           ++ cbn in Hloop. injection Hloop as <- _. cbn. eauto.
           ++ destruct (IH (loop_vars_at k v code tests (stdout +:+ stderr) analysis)
                          s6 v' s') as (_ & _ & _ & Hex); [| exact Hloop | now apply Hex].
              split; [exact Hr6 |]. cbn. split.
              ** rewrite Hf6, bool_decide_eq_true_2; [reflexivity | now split].
              ** intros t [= <-].
                 rewrite Hf6, bool_decide_eq_false_2; [exact Htests3 |].
                 intros [_ Heq]. now apply Hnames.
    + destruct (IH (loop_vars_at k v (generated_code v) tests (stdout +:+ stderr)
                      analysis) s4 v' s') as (Hstep & Hp & Hd & Hex);
        [| exact Hloop |].
      * split; [exact Hr4 |]. cbn. split; [exact Hcode3 | now intros t [= <-]].
      * split; [exact Hstep |]. split; [now rewrite Hp |].
        split; [intros d' Hne; rewrite Hd by exact Hne; now apply Hd3 | intros _].
        destruct rest as [|k' rest']; [| now apply Hex].
        cbn in Hloop. injection Hloop as <- _. cbn. eauto.
    + cbn. split; [split; [exact Hr4 | split; [exact Hcode3 | now intros t [= <-]]] |].
      split; [exact Hp3 |]. split; [exact Hd3 | eauto].
Qed.

End LoopFiles.

Lemma makedirs_exist_ok_inv p s s1 :
  makedirs_exist_ok p s = (Ret tt, s1) -> is_Some (fs s1 !! p) /\ pm s1 = pm s.
Proof.
  unfold makedirs_exist_ok, bind, get_state, emit, set_fs, ret, raise.
  destruct (negb (Py.truthy p)); [discriminate |].
  destruct (path_exists (fs s) p) eqn:Hex; intros [= <-].
  - split; [now apply path_exists_lookup | reflexivity].
  - cbn. rewrite lookup_insert_eq. eauto.
Qed.

Lemma copy_from_project_frame n s d c :
  ready s d ->
  d <> OUTPUT_DIR ->
  file_lookup (fs s) d n = Some c ->
  is_Some (fs s !! OUTPUT_DIR) ->
  exists s',
    copy_from_project n s = (Ret tt, s')
    /\ ready s' d /\ pm s' = pm s
    /\ (forall d' n',
          file_lookup (fs s') d' n'
          = if bool_decide (d' = OUTPUT_DIR /\ n' = n) then Some c
            else file_lookup (fs s) d' n')
    /\ is_Some (fs s' !! OUTPUT_DIR).
Proof.
  intros (Hc & Ht & Hd) Hne Hn [files Ho].
  unfold copy_from_project, bind, get_state. rewrite Hc.
  unfold shutil_copy, bind, get_state, emit, set_fs. rewrite Hn.
  rewrite (proj2 (String.eqb_neq d OUTPUT_DIR) Hne). cbn. rewrite Ho. cbn.
  eexists. split; [reflexivity |]. cbn.
  split; [| split; [reflexivity | split]].
  - split; [exact Hc | split; [exact Ht |]]. cbn. now rewrite lookup_insert_ne.
  - intros d' n'. unfold file_lookup. case_bool_decide as Hdn.
    + destruct Hdn as [-> ->]. cbn. rewrite lookup_insert_eq. cbn.
      apply lookup_insert_eq.
    + destruct (Py.truthy d'); [| reflexivity].
      destruct (decide (OUTPUT_DIR = d')) as [<- | Hne'].
      * rewrite lookup_insert_eq, Ho. cbn.
        rewrite lookup_insert_ne; [reflexivity | intros <-; now apply Hdn].
      * now rewrite lookup_insert_ne.
  - rewrite lookup_insert_eq. eauto.
Qed.

Lemma try_reraise_cleanup_inv {A} (body : M A) s a s' :
  try_finally (try_except body (fun e => raise e)) cleanup s = (Ret a, s') ->
  exists sb, body s = (Ret a, sb) /\ s' = snd (cleanup sb).
Proof.
  unfold try_finally, try_except, raise.
  destruct (body s) as [[b | e] sb];
    destruct (cleanup sb) as [[[] | e'] sc] eqn:Hc; intros H;
    try discriminate H.
  injection H as <- <-. exists sb. split; [reflexivity | now rewrite Hc].
Qed.

Lemma file_lookup_same f f' d n :
  f' !! d = f !! d -> file_lookup f' d n = file_lookup f d n.
Proof. intros H. unfold file_lookup. now rewrite H. Qed.

(** X7. When [generate_code_and_tests] returns, the code and the tests it
    returns are the contents of generated_module.py and
    test_generated_module.py in the output directory: what is saved is the
    last version of the code (after every repair) and the tests last
    generated. *)
Theorem returned_code_is_saved (E : env) (prompt language : string)
    (test_plan : option string) (s : state) (code tests : string) (s' : state) :
  Qwen3Coder.generate_code_and_tests E prompt language test_plan s
  = (Ret (code, tests), s') ->
  file_lookup (fs s') OUTPUT_DIR Qwen3Coder.code_file = Some code
  /\ file_lookup (fs s') OUTPUT_DIR Qwen3Coder.test_file = Some tests.
Proof.
  intros H. unfold Qwen3Coder.generate_code_and_tests in H.
  apply bind_ret_inv in H as ([] & s1 & Hmk & H).
  apply makedirs_exist_ok_inv in Hmk as [Hout _].
  apply bind_ret_inv in H as ([] & s2 & Hnew & H).
  unfold Qwen3Coder.new_project_manager in Hnew. injection Hnew as <-.
  apply try_reraise_cleanup_inv in H as (sb & H & ->).
  apply bind_ret_inv in H as ([] & s3 & Hcp & H).
  match type of Hcp with create_project ?st = _ =>
    pose proof (keeps_base_create_project st) as Hb3;
    destruct (create_project_fresh st eq_refl)
      as (s3' & Hcp' & Hc3 & Hf3 & Hd3) end.
  rewrite Hcp' in Hcp, Hb3. injection Hcp as ->. cbn in Hc3, Hf3, Hd3, Hb3.
  assert (ready s3 "temp_coding_project") as Hr3
    by (split; [exact Hc3 | split; [reflexivity | rewrite Hf3; eauto]]).
  apply bind_ret_inv in H as (code0 & s4 & Hgen & H).
  rewrite generate_code_step in Hgen. injection Hgen as _ <-.
  apply bind_ret_inv in H as ([] & s5 & Hw & H).
  match type of Hw with write_file _ _ ?st = _ =>
    assert (ready st "temp_coding_project") as Hr4 by exact Hr3;
    destruct (write_file_frame Qwen3Coder.code_file code0 st _ Hr4)
      as (s5' & Hw' & Hr5 & Hp5 & _ & Hf5 & Hd5) end.
  rewrite Hw' in Hw. injection Hw as ->. cbn in Hd5.
  apply bind_ret_inv in H as (plan & s6 & Hplan & H).
  assert (fs s6 = fs s5 /\ pm s6 = pm s5) as [Hfs6 Hpm6].
  { destruct (negb _).
    - unfold generate_test_plan in Hplan.
      rewrite (call_ollama_api_eq _ _ _ "qwen3-coder:latest") in Hplan by reflexivity.
      injection Hplan as _ <-. now split.
    - injection Hplan as _ <-. now split. }
  assert (files_in_step Qwen3Coder.code_file Qwen3Coder.test_file
            "temp_coding_project" (loop_init code0) s6) as Hstep.
  { split; [| split].
    - destruct Hr5 as (Hc & Ht & Hd). now rewrite <- Hfs6, <- Hpm6 in *.
    - rewrite Hfs6, Hf5. cbn. now rewrite bool_decide_eq_true_2.
    - intros t. discriminate. }
  apply bind_ret_inv in H as (v & s7 & Hloop & H).
  unfold run_test_loop in Hloop.
  destruct (loop_files E Qwen3Coder.test_command Qwen3Coder.code_file
              Qwen3Coder.test_file plan ltac:(discriminate) "temp_coding_project" _
              (loop_init code0) s6 v s7 Hstep Hloop)
    as ((Hr7 & Hcode7 & Htests7) & Hp7 & Hd7 & _).
  assert (is_Some (fs s7 !! OUTPUT_DIR)) as Hout7.
  { rewrite Hd7, Hfs6, Hd5, Hd3 by discriminate. exact Hout. }
  apply bind_ret_inv in H as ([] & s8 & Hcopy & H).
  destruct (copy_from_project_frame Qwen3Coder.code_file s7 _ _ Hr7
              ltac:(discriminate) Hcode7 Hout7)
    as (s8' & Hcopy' & Hr8 & Hp8 & Hf8 & Hout8).
  rewrite Hcopy' in Hcopy. injection Hcopy as ->.
  apply bind_ret_inv in H as ([] & s9 & Hcopy2 & H).
  destruct (generated_tests v) as [t |] eqn:Hgt; [| discriminate].
  injection H as <- <- <-.
  assert (file_lookup (fs s8) "temp_coding_project" Qwen3Coder.test_file = Some t) as Ht8.
  { rewrite Hf8, bool_decide_eq_false_2 by (intros [? _]; discriminate).
    now apply Htests7. }
  destruct (copy_from_project_frame Qwen3Coder.test_file s8 _ _ Hr8
              ltac:(discriminate) Ht8 Hout8)
    as (s9' & Hcopy2' & Hr9 & Hp9 & Hf9 & _).
  rewrite Hcopy2' in Hcopy2. injection Hcopy2 as ->.
  assert (fs (snd (cleanup s9)) !! OUTPUT_DIR = fs s9 !! OUTPUT_DIR) as Hclean.
  { apply cleanup_other_dirs. rewrite Hp9, Hp8, Hp7, Hpm6, Hp5. cbn [logged pm].
    rewrite Hb3. discriminate. }
  rewrite !(file_lookup_same _ _ _ _ Hclean), !Hf9, !Hf8.
  split.
  - rewrite bool_decide_eq_false_2 by (intros [_ ?]; discriminate).
    now rewrite bool_decide_eq_true_2.
  - now rewrite bool_decide_eq_true_2.
Qed.

(** A service whose debugger returns corrected code, and tests that pass
    once a repair has been requested. *)
Definition fixed_code : string := "def add(a, b): return a + b".

Definition repairing : env :=
  {| ollama_post := fun _ _ r =>
       match r with
       | ReqAnalyze _ _ => HttpContent "code_bug"
       | ReqDebug _ _ _ => HttpContent fixed_code
       | ReqTests _ _ _ => HttpContent "def test_add(): assert add(1, 2) == 3"
       | _ => HttpContent buggy_code
       end;
     subprocess_run := fun lg _ _ _ =>
       if (count_ev is_repair lg =? 0)%nat then failing_tests else passing_tests;
     traceback_format_exc := fun _ => "Traceback (most recent call last): ...";
     MAX_DEBUG_ATTEMPTS := 3;
     MAX_TEST_REGEN_ATTEMPTS := 2 |}.

Lemma returned_code_is_saved_witness :
  exists s',
    Qwen3Coder.generate_code_and_tests repairing "add two numbers" "python"
      (Some "test add") world0
    = (Ret (fixed_code, "def test_add(): assert add(1, 2) == 3"), s')
    /\ file_lookup (fs s') OUTPUT_DIR Qwen3Coder.code_file = Some fixed_code
    /\ file_lookup (fs s') OUTPUT_DIR Qwen3Coder.test_file
       = Some "def test_add(): assert add(1, 2) == 3".
Proof.
  eexists. split; [vm_compute; reflexivity |].
  apply (returned_code_is_saved repairing "add two numbers" "python"
           (Some "test add") world0).
  vm_compute. reflexivity.
Defined.

(** ** The work of a whole run *)

Definition is_code_request (e : event) : bool :=
  match e with EvRequest _ (ReqCode _ _) => true | _ => false end.

Definition is_plan_request (e : event) : bool :=
  match e with EvRequest _ (ReqPlan _ _) => true | _ => false end.

Definition is_request (e : event) : bool :=
  match e with EvRequest _ _ => true | _ => false end.

Lemma count_requests l :
  count_ev is_request l
  = count_ev is_code_request l + count_ev is_plan_request l
    + count_ev is_test_generation l + count_ev is_analysis l + count_ev is_repair l.
Proof.
  unfold count_ev. induction l as [|e l IH]; [reflexivity |].
  destruct e as [| | | | key r |]; cbn; try exact IH.
  destruct r; cbn; rewrite IH; lia.
Qed.

Lemma bounded_try_except {A} f n n' (m : M A) h :
  bounded f n m -> (forall e, bounded f n' (h e)) -> bounded f (n + n') (try_except m h).
Proof.
  intros Hm Hh s. unfold try_except.
  destruct (Hm s) as (l & Hl & Hc).
  destruct (m s) as [[a | e] s']; cbn in *.
  - exists l. split; [exact Hl | lia].
  - destruct (Hh e s') as (l' & Hl' & Hc').
    exists (l ++ l'). rewrite Hl', Hl, <- app_assoc, count_ev_app.
    split; [reflexivity | lia].
Qed.

Lemma bounded_try_finally {A} f n n' (m : M A) fin :
  bounded f n m -> bounded f n' fin -> bounded f (n + n') (try_finally m fin).
Proof.
  intros Hm Hf s. unfold try_finally.
  destruct (Hm s) as (l & Hl & Hc).
  destruct (m s) as [r s']; cbn in *.
  destruct (Hf s') as (l' & Hl' & Hc').
  exists (l ++ l'). rewrite count_ev_app.
  destruct (fin s') as [[[] | e] s'']; cbn in *;
    rewrite Hl', Hl, <- app_assoc; (split; [reflexivity | lia]).
Qed.

Lemma bounded_request (f : event -> bool) E req key n :
  (if f (EvRequest key req) then 1 else 0) <= n ->
  bounded f n (call_ollama_api E req key).
Proof. intros H. eapply bounded_weaken; [exact H | apply bounded_call_ollama_api]. Qed.

Lemma bounded_then_ret {A B} f n (m : M A) (g : A -> B) :
  bounded f n m -> bounded f n (a <- m ;; ret (g a)).
Proof.
  intros H. apply (bounded_weaken f (n + 0)); [lia |].
  apply bounded_bind; [exact H | intros; apply bounded_ret].
Qed.

Section WorkOfARun.

Context (E : env) (f : event -> bool).
Context (Hfs : forall e, is_fs_event e = true -> f e = false).
Context (n_code n_plan n_tests n_run n_analysis n_repair : nat).
Context (Hcode : forall l u, (if f (EvRequest "coder" (ReqCode l u)) then 1 else 0) <= n_code).
Context (Hplan : forall l p,
           (if f (EvRequest "planner" (ReqPlan l p)) then 1 else 0) <= n_plan).
Context (Htests : forall a b c,
           (if f (EvRequest "tester" (ReqTests a b c)) then 1 else 0) <= n_tests).
Context (Hrun : forall c d t, (if f (EvSubprocess c d t) then 1 else 0) <= n_run).
Context (Hanalysis : forall a b,
           (if f (EvRequest "analyzer" (ReqAnalyze a b)) then 1 else 0) <= n_analysis).
Context (Hrepair : forall a b c,
           (if f (EvRequest "debugger" (ReqDebug a b c)) then 1 else 0) <= n_repair).

Let attempts : nat :=
  Nat.min (MAX_DEBUG_ATTEMPTS E + MAX_TEST_REGEN_ATTEMPTS E)
    (S (Nat.max (MAX_DEBUG_ATTEMPTS E) (MAX_TEST_REGEN_ATTEMPTS E))).

Let loop_bound : nat :=
  attempts * (n_tests + n_run + n_analysis) + MAX_DEBUG_ATTEMPTS E * n_repair.

Lemma bounded_run_command_n cmd t : bounded f n_run (run_command E cmd t).
Proof.
  unfold run_command. apply bounded_bind_l; [quiet | intros s].
  destruct (negb _); [eapply bounded_weaken; [| apply bounded_raise]; lia |].
  apply (bounded_weaken f (n_run + 0)); [lia |].
  apply bounded_bind; [| intros _; quiet].
  eapply bounded_weaken; [| apply bounded_emit]. apply Hrun.
Qed.

(** Each iteration costs at most one test generation, one test run and one
    classification, and a repair only at an index below
    [MAX_DEBUG_ATTEMPTS]. *)
Lemma test_loop_work tc cf tf tp n : forall k v,
  bounded f
    (Nat.min n (S (Nat.max (MAX_DEBUG_ATTEMPTS E) (MAX_TEST_REGEN_ATTEMPTS E) - k))
       * (n_tests + n_run + n_analysis)
     + (MAX_DEBUG_ATTEMPTS E - k) * n_repair)
    (test_loop E tc cf tf tp (seq k n) v).
Proof.
  remember (Nat.max (MAX_DEBUG_ATTEMPTS E) (MAX_TEST_REGEN_ATTEMPTS E)) as mx eqn:Hmx.
  remember (n_tests + n_run + n_analysis) as w eqn:Hw.
  induction n as [|n IH]; intros k v; cbn [seq test_loop].
  { eapply bounded_weaken; [| apply bounded_ret]. apply Nat.le_0_l. }
  assert (forall v', (k < mx)%nat ->
            bounded f (Nat.min n (mx - k) * w + (MAX_DEBUG_ATTEMPTS E - S k) * n_repair)
              (test_loop E tc cf tf tp (seq (S k) n) v')) as Hrec.
  { intros v' Hk. eapply bounded_weaken; [| apply IH].
    replace (S (mx - S k)) with (mx - k) by lia. lia. }
  apply (bounded_weaken f
           (n_tests + (0 + (n_run + (n_analysis
              + (Nat.min n (mx - k) * w
                 + (if (k <? MAX_DEBUG_ATTEMPTS E)%nat
                    then n_repair + (MAX_DEBUG_ATTEMPTS E - S k) * n_repair
                    else 0))))))).
  { destruct (k <? MAX_DEBUG_ATTEMPTS E)%nat eqn:Hk.
    - apply Nat.ltb_lt in Hk.
      replace (MAX_DEBUG_ATTEMPTS E - k) with (S (MAX_DEBUG_ATTEMPTS E - S k)) by lia.
      nia.
    - nia. }
  apply bounded_bind;
    [unfold generate_unit_tests; apply bounded_then_ret, bounded_request, Htests
    | intros tests].
  apply bounded_bind; [apply bounded_write_file, Hfs | intros _].
  apply bounded_bind; [apply bounded_run_command_n |].
  intros [[stdout stderr] returncode].
  destruct (returncode =? 0)%Z.
  { eapply bounded_weaken; [| apply bounded_ret]. lia. }
  apply bounded_bind.
  { unfold analyze_test_failure.
    apply (bounded_weaken f (n_analysis + 0)); [lia |].
    apply bounded_bind; [apply bounded_request, Hanalysis | intros; quiet]. }
  intros analysis.
  destruct (String.eqb analysis "code_bug"); cbn [andb].
  - destruct (k <? MAX_DEBUG_ATTEMPTS E)%nat eqn:Hk.
    + apply Nat.ltb_lt in Hk.
      apply (bounded_weaken f
               (n_repair + (0 + (Nat.min n (mx - k) * w
                                 + (MAX_DEBUG_ATTEMPTS E - S k) * n_repair))));
        [lia |].
      apply bounded_bind;
        [unfold debug_code; apply bounded_then_ret, bounded_request, Hrepair
        | intros code].
      apply bounded_bind; [apply bounded_write_file, Hfs | intros _].
      apply Hrec. lia.
    + destruct (String.eqb analysis "test_bug"); cbn [andb];
        [destruct (k <? MAX_TEST_REGEN_ATTEMPTS E)%nat eqn:Hk2 |].
      * apply Nat.ltb_lt in Hk2. apply Nat.ltb_ge in Hk.
        eapply bounded_weaken; [| apply Hrec; lia]. lia.
      * eapply bounded_weaken; [| apply bounded_ret]. lia.
      * eapply bounded_weaken; [| apply bounded_ret]. lia.
  - destruct (String.eqb analysis "test_bug"); cbn [andb];
      [destruct (k <? MAX_TEST_REGEN_ATTEMPTS E)%nat eqn:Hk2 |].
    + apply Nat.ltb_lt in Hk2.
      eapply bounded_weaken; [| apply Hrec; lia].
      destruct (k <? MAX_DEBUG_ATTEMPTS E)%nat eqn:Hk; [lia |].
      apply Nat.ltb_ge in Hk.
      replace (MAX_DEBUG_ATTEMPTS E - S k) with 0 by lia. lia.
    + eapply bounded_weaken; [| apply bounded_ret]. lia.
    + eapply bounded_weaken; [| apply bounded_ret]. lia.
Qed.

Lemma run_test_loop_work tc cf tf tp code :
  bounded f loop_bound (run_test_loop E tc cf tf tp code).
Proof.
  unfold run_test_loop. eapply bounded_weaken; [| apply test_loop_work].
  subst loop_bound attempts. cbv zeta. rewrite !Nat.sub_0_r. lia.
Qed.

Lemma qwen3_work prompt language test_plan :
  bounded f
    (n_code + (if Py.truthy_opt test_plan then 0 else n_plan) + loop_bound)
    (Qwen3Coder.generate_code_and_tests E prompt language test_plan).
Proof.
  unfold Qwen3Coder.generate_code_and_tests.
  set (np := if Py.truthy_opt test_plan then 0 else n_plan).
  apply bounded_bind_l; [unfold makedirs_exist_ok; quiet; apply bounded_emit_0, Hfs;
                         reflexivity | intros _].
  apply bounded_bind_l; [intros s; exists []; cbn; now rewrite app_nil_r | intros _].
  apply (bounded_weaken f ((n_code + np + loop_bound + 0) + 0)); [lia |].
  apply bounded_try_finally; [| apply bounded_cleanup, Hfs].
  apply bounded_try_except; [| intros; apply bounded_raise].
  apply bounded_bind_l.
  { unfold create_project, rmtree, makedirs.
    repeat first [apply bounded_emit_0, Hfs; reflexivity | progress quiet]. }
  intros _.
  apply (bounded_weaken f (n_code + (0 + (np + (loop_bound + 0))))); [lia |].
  apply bounded_bind;
    [unfold generate_code; apply bounded_then_ret, bounded_request, Hcode | intros code].
  apply bounded_bind; [apply bounded_write_file, Hfs | intros _].
  apply bounded_bind.
  { subst np. destruct (Py.truthy_opt test_plan); cbn [negb].
    - apply bounded_ret.
    - unfold generate_test_plan. apply bounded_request, Hplan. }
  intros plan.
  apply bounded_bind; [apply run_test_loop_work | intros v].
  apply bounded_bind_0; [apply bounded_copy_from_project, Hfs | intros _].
  apply bounded_bind_0; [apply bounded_copy_from_project, Hfs | intros _].
  destruct (generated_tests v); quiet.
Qed.

Lemma phi4_work language code_file prompt test_plan mode initial_code :
  bounded f (n_code + loop_bound)
    (Phi4.execute_coding_agent_v2 E language code_file prompt test_plan mode
       initial_code).
Proof.
  unfold Phi4.execute_coding_agent_v2.
  apply (bounded_weaken f ((n_code + loop_bound + 0) + 0)); [lia |].
  apply bounded_try_finally; [| apply bounded_cleanup, Hfs].
  apply bounded_try_except; [| intros; apply bounded_ret].
  apply bounded_bind_l.
  { unfold create_project, rmtree, makedirs.
    repeat first [apply bounded_emit_0, Hfs; reflexivity | progress quiet]. }
  intros _.
  apply (bounded_weaken f (n_code + (0 + (loop_bound + 0)))); [lia |].
  apply bounded_bind.
  { destruct (_ && _); unfold generate_code;
      apply bounded_then_ret, bounded_request, Hcode. }
  intros code.
  apply bounded_bind; [apply bounded_write_file, Hfs | intros _].
  cbv zeta.
  apply bounded_bind; [apply run_test_loop_work | intros v].
  apply bounded_bind_0; [apply bounded_copy_from_project, Hfs | intros _].
  destruct (test_passed v); quiet.
Qed.

End WorkOfARun.

(** The number of iterations a run can make: the loop has
    [MAX_DEBUG_ATTEMPTS + MAX_TEST_REGEN_ATTEMPTS] indices, and no iteration
    continues from an index that has reached both limits. *)
Definition max_attempts (E : env) : nat :=
  Nat.min (MAX_DEBUG_ATTEMPTS E + MAX_TEST_REGEN_ATTEMPTS E)
    (S (Nat.max (MAX_DEBUG_ATTEMPTS E) (MAX_TEST_REGEN_ATTEMPTS E))).

(** What a run added to the log, by kind of interaction. *)
Record work_within (E : env) (plans : nat) (l : list event) : Prop :=
  { work_code : count_ev is_code_request l <= 1;
    work_plan : count_ev is_plan_request l <= plans;
    work_tests : count_ev is_test_generation l <= max_attempts E;
    work_runs : count_ev is_test_run l <= max_attempts E;
    work_analyses : count_ev is_analysis l <= max_attempts E;
    work_repairs : count_ev is_repair l <= MAX_DEBUG_ATTEMPTS E;
    work_requests :
      count_ev is_request l
      <= 1 + plans + 2 * max_attempts E + MAX_DEBUG_ATTEMPTS E }.

Lemma work_within_intro {A} (E : env) (plans : nat) (m : M A) :
  bounded is_code_request 1 m ->
  bounded is_plan_request plans m ->
  bounded is_test_generation (max_attempts E) m ->
  bounded is_test_run (max_attempts E) m ->
  bounded is_analysis (max_attempts E) m ->
  bounded is_repair (MAX_DEBUG_ATTEMPTS E) m ->
  forall s, exists l, log (snd (m s)) = log s ++ l /\ work_within E plans l.
Proof.
  intros H1 H2 H3 H4 H5 H6 s.
  destruct (H1 s) as (l & Hl & C1), (H2 s) as (l2 & Hl2 & C2),
    (H3 s) as (l3 & Hl3 & C3), (H4 s) as (l4 & Hl4 & C4),
    (H5 s) as (l5 & Hl5 & C5), (H6 s) as (l6 & Hl6 & C6).
  rewrite Hl in Hl2, Hl3, Hl4, Hl5, Hl6.
  apply app_inv_head in Hl2, Hl3, Hl4, Hl5, Hl6. subst l2 l3 l4 l5 l6.
  exists l. split; [exact Hl |].
  split; try assumption. rewrite count_requests. lia.
Qed.

Ltac work_premises :=
  first [ intros [] ?; (discriminate || reflexivity) | intros; cbn; lia ].

Ltac work_bound nc np nt nr na nd :=
  eapply bounded_weaken;
  [| first
       [ apply qwen3_work with (n_code := nc) (n_plan := np) (n_tests := nt)
           (n_run := nr) (n_analysis := na) (n_repair := nd)
       | apply phi4_work with (n_code := nc) (n_tests := nt)
           (n_run := nr) (n_analysis := na) (n_repair := nd) ];
     work_premises ];
  unfold max_attempts; try destruct (Py.truthy_opt _); lia.

(** X8. One call of [generate_code_and_tests], whatever the model service
    and the test runs answer and whether it returns or raises, asks for code
    at most once, for a test plan at most once and not at all when a test
    plan was passed, generates tests, runs them and classifies a failure at
    most [max_attempts] times each, and asks for at most
    [MAX_DEBUG_ATTEMPTS] repairs. *)
Theorem generate_code_and_tests_work (E : env) (prompt language : string)
    (test_plan : option string) (s : state) :
  exists l,
    log (snd (Qwen3Coder.generate_code_and_tests E prompt language test_plan s))
    = log s ++ l
    /\ work_within E (if Py.truthy_opt test_plan then 0 else 1) l.
Proof.
  apply work_within_intro;
    [ work_bound 1 0 0 0 0 0 | work_bound 0 1 0 0 0 0 | work_bound 0 0 1 0 0 0
    | work_bound 0 0 0 1 0 0 | work_bound 0 0 0 0 1 0 | work_bound 0 0 0 0 0 1 ].
Qed.

(** X9. One call of [execute_coding_agent_v2] asks for code at most once,
    never asks for a test plan, generates tests, runs them and classifies a
    failure at most [max_attempts] times each, and asks for at most
    [MAX_DEBUG_ATTEMPTS] repairs. *)
Theorem execute_coding_agent_v2_work (E : env)
    (language code_file prompt test_plan mode : string)
    (initial_code : option string) (s : state) :
  exists l,
    log (snd (Phi4.execute_coding_agent_v2 E language code_file prompt test_plan
                mode initial_code s))
    = log s ++ l
    /\ work_within E 0 l.
Proof.
  apply work_within_intro;
    [ work_bound 1 0 0 0 0 0 | work_bound 0 0 0 0 0 0 | work_bound 0 0 1 0 0 0
    | work_bound 0 0 0 1 0 0 | work_bound 0 0 0 0 1 0 | work_bound 0 0 0 0 0 1 ].
Qed.

(** ** The answer of [execute_coding_agent_v2] *)

Lemma test_name_differs (code_file : string) : code_file <> "test_" +:+ code_file.
Proof.
  intros H. apply (f_equal String.length) in H.
  unfold String.append in H. cbn in H. lia.
Qed.






(** * The single-file agent of experiment2/fail/qwen3:30b-a3b.py

    [execute_coding_agent] works in a [tempfile.TemporaryDirectory()]
    instead of a [ProjectManager]; [temp_dir] is the name that call picks
    (a directory that does not exist yet).  It calls [subprocess.run]
    itself, so a timeout or a missing pytest is an exception here. *)

Module A3bAgent.

Definition generate_test_plan (E : env) (language prompt : string) : M string :=
  A3b.call_ollama_api E (ReqPlan language prompt) "planner".

Definition generate_code (E : env) (language prompt : string) : M string :=
  raw_code <- A3b.call_ollama_api E (ReqCode language prompt) "coder" ;;
  ret (Py.strip (Py.sub_fences raw_code)).

Definition generate_unit_tests (E : env) (file_name code_content test_plan : string)
  : M string :=
  A3b.call_ollama_api E (ReqTests file_name code_content test_plan) "tester".

Definition debug_code (E : env) (code_content test_output test_file : string)
  : M string :=
  fixed <- A3b.call_ollama_api E (ReqDebug code_content test_output test_file)
             "debugger" ;;
  ret (Py.strip fixed).

(** [repr] of a list of strings without quotes or backslashes. *)
Definition repr_command (command : list string) : string :=
  "[" +:+ String.concat ", " (map (fun a => "'" +:+ a +:+ "'") command) +:+ "]".

(** [subprocess.run(command, cwd=cwd, capture_output=True, text=True,
    timeout=30)] *)
Definition run (E : env) (command : list string) (cwd : string)
  : M (string * string * Z) :=
  s <- get_state ;;
  emit (EvSubprocess command cwd 30) ;;
  match subprocess_run E (log s) command cwd 30 with
  | Completed stdout stderr returncode => ret (stdout, stderr, returncode)
  | TimeoutExpired =>
      raise (Exn OtherException
               ("Command '" +:+ repr_command command
                +:+ "' timed out after 30 seconds"))
  | ProcException e => raise e
  end.

Definition pytest (test_path : string) : list string :=
  ["pytest"; "-q"; "--tb=no"; test_path].

(** [stdout, stderr, returncode = subprocess.run(...).stdout,
    subprocess.run(...).stderr, 0]: two runs, and the literal [0]. *)
Definition run_tests (E : env) (test_path temp_dir : string)
  : M (string * string * Z) :=
  first <- run E (pytest test_path) temp_dir ;;
  second <- run E (pytest test_path) temp_dir ;;
  ret (fst (fst first), snd (fst second), 0%Z).

Definition passed_answer (final_path language code : string) : string :=
  String.concat ""
    [ "✅ Tests passed!"; Py.nl; Py.nl; "Code saved to: "; final_path; Py.nl; Py.nl;
      "**Code:**"; Py.nl; "```"; language; Py.nl; code; Py.nl; "```" ].

Definition passed_after_debugging_answer (final_path language code : string)
  : string :=
  String.concat ""
    [ "✅ Tests passed after debugging!"; Py.nl; Py.nl; "Code saved to: ";
      final_path; Py.nl; Py.nl;
      "**Code:**"; Py.nl; "```"; language; Py.nl; code; Py.nl; "```" ].

Definition failed_answer (final_path stdout stderr : string) : string :=
  String.concat ""
    [ "❌ Tests failed after debugging."; Py.nl; Py.nl; "Last code saved to: ";
      final_path; Py.nl; Py.nl;
      "**Test Output:**"; Py.nl; "```"; Py.nl; stdout; stderr; Py.nl; "```" ].

(** [for _ in range(MAX_DEBUG_ATTEMPTS): ...] on the variables
    [(code, stdout, stderr, returncode)]. *)
Fixpoint debugging_loop (E : env) (temp_dir code_file test_path : string)
    (n : nat) (v : string * string * string * Z)
  : M (string * string * string * Z) :=
  match n with
  | O => ret v
  | S n' =>
      let '(code, stdout, stderr, returncode) := v in
      analysis <- A3b.analyze_test_failure E code (stdout +:+ stderr) ;;
      if String.eqb analysis "code_bug" then
        code' <- debug_code E code (stdout +:+ stderr) test_path ;;
        open_write temp_dir code_file code' ;;
        r <- run_tests E test_path temp_dir ;;
        let '(stdout', stderr', returncode') := r in
        if (returncode' =? 0)%Z then ret (code', stdout', stderr', returncode')
        else debugging_loop E temp_dir code_file test_path n'
               (code', stdout', stderr', returncode')
      else debugging_loop E temp_dir code_file test_path n' v
  end.

Definition execute_coding_agent (E : env) (temp_dir : string)
    (language code_file prompt : string) : M string :=
  makedirs_exist_ok OUTPUT_DIR ;;
  test_plan <- generate_test_plan E language prompt ;;
  code <- generate_code E language prompt ;;
  makedirs temp_dir ;;
  try_finally
    (let test_file := "test_" +:+ code_file in
     let test_path := Py.path_join temp_dir test_file in
     open_write temp_dir code_file code ;;
     test_code <- generate_unit_tests E code_file code test_plan ;;
     open_write temp_dir test_file test_code ;;
     r <- run_tests E test_path temp_dir ;;
     let '(stdout, stderr, returncode) := r in
     let final_path := Py.path_join OUTPUT_DIR code_file in
     if (returncode =? 0)%Z then
       shutil_copy temp_dir code_file OUTPUT_DIR ;;
       ret (passed_answer final_path language code)
     else
       v <- debugging_loop E temp_dir code_file test_path (MAX_DEBUG_ATTEMPTS E)
              (code, stdout, stderr, returncode) ;;
       let '(code', stdout', stderr', returncode') := v in
       shutil_copy temp_dir code_file OUTPUT_DIR ;;
       if (returncode' =? 0)%Z then
         ret (passed_after_debugging_answer final_path language code')
       else ret (failed_answer final_path stdout' stderr'))
    (rmtree temp_dir).

End A3bAgent.

(** ** What [execute_coding_agent] reports *)

Lemma a3b_call_ollama_api_eq E r key s :
  is_Some (MODELS_get key) ->
  exists a, A3b.call_ollama_api E r key s = (Ret a, logged s [EvRequest key r]).
Proof.
  intros [name Hk]. unfold A3b.call_ollama_api. rewrite Hk.
  unfold bind, get_state, emit, ret. cbn.
  destruct (ollama_post E (log s) key r); eauto.
Qed.

Lemma a3b_call_ollama_api_inv E r key s a s' :
  A3b.call_ollama_api E r key s = (Ret a, s') -> fs s' = fs s.
Proof.
  destruct (MODELS_get key) as [name |] eqn:Hk.
  - destruct (a3b_call_ollama_api_eq E r key s) as (a' & H); [eauto |].
    rewrite H. now intros [= _ <-].
  - unfold A3b.call_ollama_api. rewrite Hk. discriminate.
Qed.

Lemma makedirs_inv p s s' :
  makedirs p s = (Ret tt, s') ->
  Py.truthy p = true /\ fs s !! p = None /\ fs s' = <[p := ∅]> (fs s).
Proof.
  unfold makedirs, bind, get_state, emit, set_fs, ret, raise, path_exists.
  destruct (Py.truthy p); cbn; [| discriminate].
  case_bool_decide as Hp; cbn; [discriminate |].
  intros [= <-]. split; [reflexivity |]. split; [| reflexivity].
  destruct (fs s !! p) eqn:Hl; [| reflexivity]. exfalso. apply Hp. eauto.
Qed.

Lemma open_write_inv d n c s s' :
  open_write d n c s = (Ret tt, s') ->
  exists files, fs s !! d = Some files /\ fs s' = <[d := <[n := c]> files]> (fs s).
Proof.
  unfold open_write, bind, get_state, emit, set_fs, ret, raise.
  destruct (Py.truthy d); [| discriminate].
  destruct (fs s !! d) as [files |]; [| discriminate].
  intros [= <-]. eauto.
Qed.

Lemma shutil_copy_inv src n dst s s' :
  shutil_copy src n dst s = (Ret tt, s') ->
  exists c files,
    file_lookup (fs s) src n = Some c
    /\ fs s' = <[dst := <[n := c]> files]> (fs s).
Proof.
  unfold shutil_copy, bind, get_state, emit, set_fs, ret, raise.
  destruct (file_lookup (fs s) src n) as [c |]; [| discriminate].
  destruct (String.eqb src dst); [discriminate |].
  destruct (Py.truthy dst); [| discriminate].
  destruct (fs s !! dst) as [files |]; [| discriminate].
  intros [= <-]. eauto.
Qed.

Lemma a3b_run_inv E cmd d s r s' :
  A3bAgent.run E cmd d s = (Ret r, s') -> fs s' = fs s.
Proof.
  unfold A3bAgent.run, bind, get_state, emit, ret, raise. cbn.
  destruct (subprocess_run E _ _ _ _); [| discriminate | discriminate].
  now intros [= _ <-].
Qed.

(** The status the tests are judged by is the literal [0]. *)
Lemma run_tests_inv E p d s r s' :
  A3bAgent.run_tests E p d s = (Ret r, s') -> snd r = 0%Z /\ fs s' = fs s.
Proof.
  intros H. unfold A3bAgent.run_tests in H.
  apply bind_ret_inv in H as (r1 & s1 & H1 & H).
  apply bind_ret_inv in H as (r2 & s2 & H2 & H).
  apply a3b_run_inv in H1, H2. injection H as <- <-.
  split; [reflexivity | congruence].
Qed.

Lemma try_finally_rmtree_inv {A} (body : M A) d s a s' :
  try_finally body (rmtree d) s = (Ret a, s') ->
  exists sb, body s = (Ret a, sb) /\ fs s' = delete d (fs sb).
Proof.
  unfold try_finally, rmtree, bind, get_state, emit, set_fs, ret. cbn.
  destruct (body s) as [r sb]. intros [= -> <-]. eauto.
Qed.

(** X11. Whenever [execute_coding_agent] returns, what it returns is the
    report that the tests passed, whatever pytest printed and whatever
    status it exited with: the status the function looks at is the literal
    [0], so the debugging loop and the failure report are never reached.
    The code quoted in the report is saved in the output directory, and the
    temporary directory is gone. *)
Theorem execute_coding_agent_always_passes (E : env)
    (temp_dir language code_file prompt : string) (s : state)
    (ans : string) (s' : state) :
  A3bAgent.execute_coding_agent E temp_dir language code_file prompt s
  = (Ret ans, s') ->
  exists code,
    ans = A3bAgent.passed_answer (Py.path_join OUTPUT_DIR code_file) language code
    /\ file_lookup (fs s') OUTPUT_DIR code_file = Some code
    /\ path_exists (fs s') temp_dir = false.
Proof.
  intros H. unfold A3bAgent.execute_coding_agent in H.
  apply bind_ret_inv in H as ([] & s1 & Hmk & H).
  apply makedirs_exist_ok_inv in Hmk as [Hout1 _].
  apply bind_ret_inv in H as (plan & s2 & Hplan & H).
  apply a3b_call_ollama_api_inv in Hplan.
  apply bind_ret_inv in H as (code & s3 & Hcode & H).
  apply bind_ret_inv in Hcode as (raw & s3' & Hraw & Hret).
  apply a3b_call_ollama_api_inv in Hraw. injection Hret as <- <-.
  apply bind_ret_inv in H as ([] & s4 & Htmp & H).
  apply makedirs_inv in Htmp as (Ht & Hfresh & Hfs4).
  assert (temp_dir <> OUTPUT_DIR) as Hne.
  { intros ->. rewrite Hraw, Hplan in Hfresh. rewrite Hfresh in Hout1.
    now destruct Hout1. }
  apply try_finally_rmtree_inv in H as (sb & H & Hfs').
  cbv zeta in H.
  apply bind_ret_inv in H as ([] & s5 & Hw1 & H).
  apply open_write_inv in Hw1 as (files1 & _ & Hfs5).
  apply bind_ret_inv in H as (tests & s6 & Htests & H).
  apply a3b_call_ollama_api_inv in Htests.
  apply bind_ret_inv in H as ([] & s7 & Hw2 & H).
  apply open_write_inv in Hw2 as (files2 & Hl6 & Hfs7).
  rewrite Htests, Hfs5, lookup_insert_eq in Hl6. injection Hl6 as <-.
  apply bind_ret_inv in H as ([[stdout stderr] returncode] & s8 & Hrun & H).
  apply run_tests_inv in Hrun as [Hrc Hfs8]. cbn in Hrc. subst returncode.
  cbn [Z.eqb] in H.
  apply bind_ret_inv in H as ([] & s9 & Hcopy & H).
  apply shutil_copy_inv in Hcopy as (c & files & Hc & Hfs9).
  injection H as <- <-.
  assert (c = Py.strip (Py.sub_fences raw)) as ->.
  { revert Hc. unfold file_lookup. rewrite Ht, Hfs8, Hfs7, lookup_insert_eq. cbn.
    rewrite lookup_insert_ne by (apply not_eq_sym, test_name_differs).
    rewrite lookup_insert_eq. now intros [= <-]. }
  eexists. split; [reflexivity |]. split.
  - unfold file_lookup. cbn. rewrite Hfs', Hfs9.
    rewrite lookup_delete_ne by exact Hne. rewrite lookup_insert_eq. cbn.
    apply lookup_insert_eq.
  - rewrite Hfs'. apply path_exists_delete.
Qed.

Lemma execute_coding_agent_always_passes_witness :
  exists s',
    A3bAgent.execute_coding_agent
      (stub 1 1 (answering (always "code_bug")) failing_tests)
      "tmpab12cd" "python" "calc.py" "add two numbers" world0
    = (Ret (A3bAgent.passed_answer "generated_code/calc.py" "python" buggy_code), s')
    /\ exists code,
         A3bAgent.passed_answer "generated_code/calc.py" "python" buggy_code
         = A3bAgent.passed_answer (Py.path_join OUTPUT_DIR "calc.py") "python" code
         /\ file_lookup (fs s') OUTPUT_DIR "calc.py" = Some code
         /\ path_exists (fs s') "tmpab12cd" = false.
Proof.
  eexists. split; [vm_compute; reflexivity |].
  apply (execute_coding_agent_always_passes
           (stub 1 1 (answering (always "code_bug")) failing_tests)
           "tmpab12cd" "python" "calc.py" "add two numbers" world0).
  vm_compute. reflexivity.
Defined.

Lemma bounded_bind_post {A B} f n n' (m : M A) (k : A -> M B) (P : A -> Prop) :
  bounded f n m ->
  (forall s a s', m s = (Ret a, s') -> P a) ->
  (forall a, P a -> bounded f n' (k a)) ->
  bounded f (n + n') (bind m k).
Proof.
  intros Hm HP Hk s. unfold bind.
  destruct (Hm s) as (l & Hl & Hc).
  destruct (m s) as [[a | e] s1] eqn:Hms; cbn in *.
  - destruct (Hk a (HP s a s1 Hms) s1) as (l' & Hl' & Hc').
    exists (l ++ l'). rewrite Hl', Hl, <- app_assoc, count_ev_app.
    split; [reflexivity | lia].
  - exists l. split; [exact Hl | lia].
Qed.

Section WorkOfTheSingleFileAgent.

Context (E : env) (f : event -> bool).
Context (Hfs : forall e, is_fs_event e = true -> f e = false).
Context (n_code n_plan n_tests n_run : nat).
Context (Hcode : forall l u, (if f (EvRequest "coder" (ReqCode l u)) then 1 else 0) <= n_code).
Context (Hplan : forall l p,
           (if f (EvRequest "planner" (ReqPlan l p)) then 1 else 0) <= n_plan).
Context (Htests : forall a b c,
           (if f (EvRequest "tester" (ReqTests a b c)) then 1 else 0) <= n_tests).
Context (Hrun : forall c d t, (if f (EvSubprocess c d t) then 1 else 0) <= n_run).

Lemma bounded_a3b_call r key n :
  (if f (EvRequest key r) then 1 else 0) <= n ->
  bounded f n (A3b.call_ollama_api E r key).
Proof.
  intros Hn s. destruct (MODELS_get key) as [name |] eqn:Hk.
  - destruct (a3b_call_ollama_api_eq E r key s) as (a & ->); [eauto |].
    exists [EvRequest key r]. split; [reflexivity |].
    unfold count_ev. cbn. destruct (f _); cbn in *; lia.
  - unfold A3b.call_ollama_api. rewrite Hk. exists []. cbn.
    split; [now rewrite app_nil_r | lia].
Qed.

Lemma bounded_a3b_run cmd d : bounded f n_run (A3bAgent.run E cmd d).
Proof.
  intros s. exists [EvSubprocess cmd d 30]. split.
  - unfold A3bAgent.run, bind, get_state, emit, ret, raise. cbn.
    destruct (subprocess_run E _ _ _ _); reflexivity.
  - pose proof (Hrun cmd d 30) as H. unfold count_ev. cbn.
    destruct (f _); cbn in *; lia.
Qed.

Lemma bounded_run_tests p d : bounded f (2 * n_run) (A3bAgent.run_tests E p d).
Proof.
  unfold A3bAgent.run_tests.
  apply (bounded_weaken f (n_run + (n_run + 0))); [lia |].
  apply bounded_bind; [apply bounded_a3b_run | intros r1].
  apply bounded_bind; [apply bounded_a3b_run | intros r2]. apply bounded_ret.
Qed.

Lemma bounded_open_write d n c : bounded f 0 (open_write d n c).
Proof.
  unfold open_write.
  repeat first [apply bounded_emit_0, Hfs; reflexivity | progress quiet].
Qed.

Lemma bounded_shutil_copy d n d' : bounded f 0 (shutil_copy d n d').
Proof.
  unfold shutil_copy.
  repeat first [apply bounded_emit_0, Hfs; reflexivity | progress quiet].
Qed.

Lemma bounded_rmtree d : bounded f 0 (rmtree d).
Proof.
  unfold rmtree.
  repeat first [apply bounded_emit_0, Hfs; reflexivity | progress quiet].
Qed.

Lemma bounded_makedirs d : bounded f 0 (makedirs d).
Proof.
  unfold makedirs.
  repeat first [apply bounded_emit_0, Hfs; reflexivity | progress quiet].
Qed.

Lemma bounded_makedirs_exist_ok d : bounded f 0 (makedirs_exist_ok d).
Proof.
  unfold makedirs_exist_ok.
  repeat first [apply bounded_emit_0, Hfs; reflexivity | progress quiet].
Qed.

Lemma a3b_agent_work temp_dir language code_file prompt :
  bounded f (n_plan + n_code + n_tests + 2 * n_run)
    (A3bAgent.execute_coding_agent E temp_dir language code_file prompt).
Proof.
  unfold A3bAgent.execute_coding_agent.
  apply bounded_bind_l; [apply bounded_makedirs_exist_ok | intros _].
  apply (bounded_weaken f
           (n_plan + (n_code + (0 + ((0 + (n_tests + (0 + (2 * n_run + 0)))) + 0)))));
    [lia |].
  apply bounded_bind; [apply bounded_a3b_call, Hplan | intros plan].
  apply bounded_bind;
    [unfold A3bAgent.generate_code; apply bounded_then_ret, bounded_a3b_call, Hcode
    | intros code].
  apply bounded_bind; [apply bounded_makedirs | intros _].
  apply bounded_try_finally; [| apply bounded_rmtree].
  cbv zeta.
  apply bounded_bind; [apply bounded_open_write | intros _].
  apply bounded_bind; [apply bounded_a3b_call, Htests | intros tests].
  apply bounded_bind; [apply bounded_open_write | intros _].
  apply (bounded_bind_post f _ _ _ _ (fun r => snd r = 0%Z));
    [apply bounded_run_tests | intros s r s' H; now apply run_tests_inv in H |].
  intros [[stdout stderr] returncode] Hrc. cbn in Hrc. subst returncode.
  cbn [Z.eqb].
  apply bounded_bind_0; [apply bounded_shutil_copy | intros _]. apply bounded_ret.
Qed.

End WorkOfTheSingleFileAgent.

(** X12. One call of [execute_coding_agent], whatever the model service
    and pytest answer and whether it returns or raises, never asks for a
    classification or a repair; it asks for one test plan, one piece of
    code and at most one set of tests, and runs pytest at most twice. *)
Theorem execute_coding_agent_never_debugs (E : env)
    (temp_dir language code_file prompt : string) (s : state) :
  exists l,
    log (snd (A3bAgent.execute_coding_agent E temp_dir language code_file prompt s))
    = log s ++ l
    /\ count_ev is_analysis l = 0
    /\ count_ev is_repair l = 0
    /\ count_ev is_test_run l <= 2
    /\ count_ev is_request l <= 3.
Proof.
  pose proof (fun f Hfs a b c d H1 H2 H3 H4 =>
                a3b_agent_work E f Hfs a b c d H1 H2 H3 H4
                  temp_dir language code_file prompt s) as W.
  destruct (W is_analysis ltac:(work_premises) 0 0 0 0
              ltac:(work_premises) ltac:(work_premises) ltac:(work_premises)
              ltac:(work_premises)) as (l & Hl & Ca).
  destruct (W is_repair ltac:(work_premises) 0 0 0 0
              ltac:(work_premises) ltac:(work_premises) ltac:(work_premises)
              ltac:(work_premises)) as (l1 & Hl1 & Cr).
  destruct (W is_test_run ltac:(work_premises) 0 0 0 1
              ltac:(work_premises) ltac:(work_premises) ltac:(work_premises)
              ltac:(work_premises)) as (l2 & Hl2 & Ct).
  destruct (W is_code_request ltac:(work_premises) 1 0 0 0
              ltac:(work_premises) ltac:(work_premises) ltac:(work_premises)
              ltac:(work_premises)) as (l3 & Hl3 & Cc).
  destruct (W is_plan_request ltac:(work_premises) 0 1 0 0
              ltac:(work_premises) ltac:(work_premises) ltac:(work_premises)
              ltac:(work_premises)) as (l4 & Hl4 & Cp).
  destruct (W is_test_generation ltac:(work_premises) 0 0 1 0
              ltac:(work_premises) ltac:(work_premises) ltac:(work_premises)
              ltac:(work_premises)) as (l5 & Hl5 & Cg).
  rewrite Hl in Hl1, Hl2, Hl3, Hl4, Hl5.
  apply app_inv_head in Hl1, Hl2, Hl3, Hl4, Hl5. subst l1 l2 l3 l4 l5.
  exists l. split; [exact Hl |]. rewrite count_requests. cbn in *. lia.
Qed.

(** * A repair is followed by a test run *)

(** Scanning a log from the left: is the last repair still waiting for a
    test run?  [p] is the answer before the log. *)
Definition repair_pending (p : bool) (l : list event) : bool :=
  fold_left
    (fun p e => if is_repair e then true else if is_test_run e then false else p)
    l p.

Lemma repair_pending_app p l1 l2 :
  repair_pending p (l1 ++ l2) = repair_pending (repair_pending p l1) l2.
Proof. apply fold_left_app. Qed.

Section RepairsAreTested.

Context (E : env) (test_command : string -> list string).
Context (code_file test_file test_plan : string).
Context (Hregen : 1 <= MAX_TEST_REGEN_ATTEMPTS E).

Local Abbreviation loop := (test_loop E test_command code_file test_file test_plan).
Local Abbreviation branch := (on_analysis E test_command code_file test_file test_plan).

(** The three ways out of the branch, with the guard of the repair. *)
Lemma branch_guard_inv k rest v tests output analysis s d v' s' :
  ready s d ->
  branch k rest v tests output analysis s = (Ret v', s') ->
  (k < MAX_DEBUG_ATTEMPTS E
   /\ exists code s2,
        ready s2 d
        /\ log s2 = log s ++ [EvRequest "debugger"
                                (ReqDebug (generated_code v) output test_file);
                              EvWrite d code_file code]
        /\ loop rest (loop_vars_at k v code tests output analysis) s2 = (Ret v', s'))
  \/ loop rest (loop_vars_at k v (generated_code v) tests output analysis) s
     = (Ret v', s')
  \/ s' = s.
Proof.
  intros Hr H. unfold on_analysis in H.
  destruct (String.eqb analysis "code_bug" && (k <? MAX_DEBUG_ATTEMPTS E)%nat)
    eqn:Hg.
  - left. apply andb_true_iff in Hg as [_ Hk]. apply Nat.ltb_lt in Hk.
    split; [exact Hk |].
    apply bind_ret_inv in H as (code & s1 & Hd & H).
    rewrite debug_code_eq in Hd. injection Hd as Hd <-.
    apply bind_ret_inv in H as ([] & s2 & Hw & H).
    set (s1 := logged s _) in *.
    assert (ready s1 d) as Hr1 by exact Hr.
    destruct (write_file_frame code_file code s1 d Hr1)
      as (s2' & Hw' & Hr2 & _ & Hl2 & _).
    rewrite Hw' in Hw. injection Hw as ->.
    exists code, s2. split; [exact Hr2 |].
    split; [rewrite Hl2; subst s1; cbn; now rewrite <- app_assoc | exact H].
  - clear Hg. destruct (_ && _).
    + right. left. exact H.
    + right. right. now injection H as _ <-.
Qed.

(** From index [k] with [n] indices left, [k + n] being the length of the
    whole range: a loop that returns leaves no repair without a later test
    run, and runs the tests at least once when [n] is not zero. *)
Lemma loop_repairs_tested d n : forall k v s v' s' p,
  ready s d ->
  k + n = MAX_DEBUG_ATTEMPTS E + MAX_TEST_REGEN_ATTEMPTS E ->
  loop (seq k n) v s = (Ret v', s') ->
  exists l,
    log s' = log s ++ l
    /\ repair_pending p l = match n with O => p | S _ => false end
    /\ (n <> 0 -> 1 <= count_ev is_test_run l).
Proof.
  induction n as [|n IH]; intros k v s v' s' p Hr Hkn H.
  { cbn in H. injection H as _ <-. exists []. rewrite app_nil_r.
    split; [reflexivity |]. split; [reflexivity | intros Hne; now contradiction Hne]. }
  cbn [seq] in H.
  destruct (iteration_inv E test_command code_file test_file test_plan
              k (seq (S k) n) v s d v' s' Hr H)
    as (tests & s3 & Hr3 & _ & Hl3 & _ & _ & Hres).
  cbv zeta in *.
  destruct (reported _) as [[stdout stderr] returncode].
  destruct (returncode =? 0)%Z eqn:Hrc.
  - cbn in Hres. rewrite Hrc in Hres. injection Hres as _ <-.
    eexists. split; [exact Hl3 |]. split; [reflexivity |].
    intros _. unfold count_ev. cbn. lia.
  - destruct (failing_result_inv E test_command code_file test_file test_plan
                k (seq (S k) n) v tests stdout stderr returncode s3 v' s' Hrc Hres)
      as (analysis & Hbr).
    set (s4 := logged s3 _) in Hbr.
    assert (ready s4 d) as Hr4 by exact Hr3.
    assert (log s4 = log s
                     ++ [EvRequest "tester"
                           (ReqTests code_file (generated_code v) test_plan);
                         EvWrite d test_file tests;
                         EvSubprocess (test_command test_file) d 60;
                         EvRequest "analyzer"
                           (ReqAnalyze (generated_code v) (stdout +:+ stderr))])
      as Hl4 by (subst s4; cbn; rewrite Hl3, <- app_assoc; reflexivity).
    destruct (branch_guard_inv k (seq (S k) n) v tests _ analysis s4 d v' s' Hr4 Hbr)
      as [(Hk & code & s6 & Hr6 & Hl6 & Hloop) | [Hloop | ->]].
    + destruct n as [|n]; [lia |].
      destruct (IH (S k) _ s6 v' s' true Hr6 ltac:(lia) Hloop)
        as (l & Hl & Hp & _).
      eexists. split; [rewrite Hl, Hl6, Hl4, <- !app_assoc; reflexivity |].
      split.
      * rewrite !repair_pending_app. cbn. exact Hp.
      * intros _. rewrite !count_ev_app. unfold count_ev at 1. cbn. lia.
    + destruct (IH (S k) _ s4 v' s' false Hr4 ltac:(lia) Hloop)
        as (l & Hl & Hp & _).
      eexists. split; [rewrite Hl, Hl4, <- !app_assoc; reflexivity |].
      split.
      * rewrite repair_pending_app. cbn. rewrite Hp. now destruct n.
      * intros _. rewrite !count_ev_app. unfold count_ev at 1. cbn. lia.
    + eexists. split; [exact Hl4 |]. split; [reflexivity |].
      intros _. unfold count_ev. cbn. lia.
Qed.

End RepairsAreTested.

(** X13. With a test-regeneration limit of at least one, a loop that
    returns has run the tests at least once, and after the last repair it
    requested it has run them again: the code it leaves behind is never a
    repair that no test run has seen. *)
Theorem repaired_code_is_tested (E : env) (test_command : string -> list string)
    (code_file test_file test_plan code : string) (s : state) (d : string)
    (v : loop_vars) (s' : state) :
  ready s d ->
  1 <= MAX_TEST_REGEN_ATTEMPTS E ->
  run_test_loop E test_command code_file test_file test_plan code s = (Ret v, s') ->
  exists l,
    log s' = log s ++ l
    /\ repair_pending false l = false
    /\ 1 <= count_ev is_test_run l.
Proof.
  intros Hr Hregen H. unfold run_test_loop in H.
  destruct (loop_repairs_tested E test_command code_file test_file test_plan Hregen
              d _ 0 _ s v s' false Hr eq_refl H) as (l & Hl & Hp & Hc).
  exists l. split; [exact Hl |].
  destruct (MAX_DEBUG_ATTEMPTS E + MAX_TEST_REGEN_ATTEMPTS E) eqn:Hn; [lia |].
  split; [exact Hp | now apply Hc].
Qed.

Lemma repaired_code_is_tested_witness :
  exists v s',
    run_test_loop (stub 3 2 (answering (always "code_bug")) failing_tests)
      Qwen3Coder.test_command "generated_module.py" "test_generated_module.py"
      "test add" buggy_code world1 = (Ret v, s')
    /\ exists l,
         log s' = log world1 ++ l
         /\ repair_pending false l = false
         /\ 1 <= count_ev is_test_run l.
Proof.
  eexists. eexists. split; [vm_compute; reflexivity |].
  eapply (repaired_code_is_tested
            (stub 3 2 (answering (always "code_bug")) failing_tests)
            Qwen3Coder.test_command "generated_module.py" "test_generated_module.py"
            "test add" buggy_code world1 "temp_coding_project").
  - apply ready_world1.
  - cbn. lia.
  - vm_compute. reflexivity.
Defined.

(** With no test-regeneration budget the last index of the range can
    repair, and that repair is returned without a test run. *)
Example untested_repair_without_regeneration :
  exists v s',
    run_test_loop (stub 1 0 (answering (always "code_bug")) failing_tests)
      Qwen3Coder.test_command "generated_module.py" "test_generated_module.py"
      "test add" buggy_code world1 = (Ret v, s')
    /\ repair_pending false (log s') = true.
Proof.
  eexists _, _. split; [vm_compute; reflexivity | vm_compute; reflexivity].
Qed.
